(** * Membership and access control of the mentoria signaling server

    A shallow embedding of the two signaling servers of the repository:

    - [Mentoria]: the access-controlled server (one pre-provisioned room,
      join requests approved by a mentor, invitations);
    - [OpenJoin]: the open-join server (ad-hoc rooms created on demand,
      capacity 20, rooms deleted when they empty).

    Modelling conventions.

    - The process-level stores ([onlineUsers], [mentoriaRooms], [rooms]) and
      the transport's table of connected sockets ([io.sockets.sockets]) are
      the components of an explicit [state]; a handler is a function from
      the state, the id of the socket the event arrived on and the event's
      payload to the next state and the list of messages it emits, in order.
    - JavaScript objects used as dictionaries are finite maps holding their
      own properties.  A read [obj[k]] of a key the object does not own
      falls through to [Object.prototype]: for the names in
      [prototype_properties] it yields a function (or the prototype itself),
      which is truthy, is no string, and has none of the fields the servers
      read from their records ([inherited], [has_record], [has_string]).  A
      member read on such a value where a room's dictionary is expected is a
      read on [undefined] and throws.  Writes and deletions act on own
      properties only (an assignment under the key [__proto__], which in
      JavaScript replaces the prototype of the object, is modelled as any
      other write).
    - An event arrives with a payload object whose fields are strings; the
      empty string stands for every falsy value a client may send or omit,
      and for a display name read as [undefined].  [truthy] is JavaScript
      truthiness on such a field.  An event sent with no payload at all is
      [no_payload]: reading a field of it throws.
    - Where the source walks over an object (participant lists, presence
      snapshots, the search for the room of a disconnecting user) the model
      walks over the map in key order; the access-controlled server never has
      more than its one pre-provisioned room.
    - An emitted message is recorded with its destination as the source names
      it (the socket itself, a transport room, everyone); whether the
      transport delivers it is not modelled.
    - A handler that throws (a property read on [undefined]) yields [None]:
      the exception is not caught and the process ends.
    - Logging is not modelled. *)

From stdpp Require Import base option strings list gmap fin_maps.

Local Open Scope string_scope.
Local Open Scope list_scope.
Local Open Scope stdpp_scope.

Set Warnings "-register-all".

(** ** Values sent over the wire *)

Inductive json :=
| JUndefined
| JNull
| JBool (b : bool)
| JNum (n : nat)
| JStr (s : string)
| JArr (xs : list json)
| JObj (fields : list (string * json)).

(** Where an emitted message goes. *)
Inductive dest :=
| to_socket (socketId : string)        (* socket.emit(...)           *)
| to_room (room : string)              (* io.to(room).emit(...)      *)
| to_room_except (room socketId : string) (* socket.to(room).emit(...) *)
| to_all                               (* io.emit(...)               *)
| to_undefined.                        (* io.to(undefined).emit(...) *)

Record emit := Emit { e_dest : dest; e_name : string; e_payload : json }.

Definition truthy (x : string) : bool := negb (String.eqb x "").

(** Truthiness of an opaque payload (an SDP or an ICE candidate). *)
Definition json_truthy (j : json) : bool :=
  match j with
  | JUndefined | JNull | JBool false | JNum 0 => false
  | JStr x => truthy x
  | _ => true
  end.

Definition truthy_opt (o : option string) : bool :=
  match o with Some x => truthy x | None => false end.

(** [a === b] where [a] is [null] or a string and [b] is [undefined] or a
    string: the two agree only when both are strings and equal. *)
Definition same_id (a b : option string) : bool :=
  match a, b with
  | Some x, Some y => String.eqb x y
  | _, _ => false
  end.

Definition error_message (socketId text : string) : emit :=
  Emit (to_socket socketId) "error_message" (JStr text).

(** ** Reads of keys an object does not own *)

(** The properties every object literal inherits from [Object.prototype]. *)
Definition prototype_properties : list string :=
  ["constructor"; "__defineGetter__"; "__defineSetter__"; "hasOwnProperty";
   "__lookupGetter__"; "__lookupSetter__"; "isPrototypeOf";
   "propertyIsEnumerable"; "toString"; "valueOf"; "__proto__"; "toLocaleString"].

Definition inherited (k : string) : bool :=
  existsb (String.eqb k) prototype_properties.

(** [obj[k]] is truthy, for a dictionary of records: an own record, or an
    inherited property. *)
Definition has_record {A : Type} (m : gmap string A) (k : string) : bool :=
  match m !! k with
  | Some _ => true
  | None => inherited k
  end.

(** [obj[k]] is truthy, for a dictionary of strings. *)
Definition has_string (m : gmap string string) (k : string) : bool :=
  match m !! k with
  | Some v => truthy v
  | None => inherited k
  end.

(** [obj[k]] is an inherited property: truthy, but none of the records the
    server stored; reading a dictionary off it gives [undefined]. *)
Definition inherited_only {A : Type} (m : gmap string A) (k : string) : bool :=
  match m !! k with
  | Some _ => false
  | None => inherited k
  end.

(** ** The access-controlled server *)

Module Mentoria.

Record user := User {
  u_socketId : string;
  u_displayName : string;
  u_isMentor : bool }.

Record participant := Participant {
  p_socketId : string;
  p_displayName : string;
  p_status : string }.

Record request := Request {
  q_socketId : string;
  q_displayName : string }.

Record room := Room {
  room_id : string;
  room_name : string;
  mentorId : option string;
  participants : gmap string participant;
  pendingRequests : gmap string request;
  invitedUsers : gmap string string }.

(** The fields the server keeps on a socket object, and the transport rooms
    the socket has joined. *)
Record socket := Socket {
  userId : option string;
  isMentor : bool;
  currentRoomId : option string;
  joinedRooms : gset string }.

Record state := State {
  onlineUsers : gmap string user;
  mentoriaRooms : gmap string room;
  sockets : gmap string socket }.

Definition defaultMentoriaRoomId : string := "default_mentoria_room".

Definition init : state :=
  State ∅
        {[ defaultMentoriaRoomId :=
             Room defaultMentoriaRoomId "Sala de Mentoria Principal" None ∅ ∅ ∅ ]}
        ∅.

Definition new_socket : socket := Socket None false None ∅.

(** Field updates. *)
Definition set_mentorId (r : room) (m : option string) : room :=
  Room (room_id r) (room_name r) m (participants r) (pendingRequests r) (invitedUsers r).
Definition set_participants (r : room) (ps : gmap string participant) : room :=
  Room (room_id r) (room_name r) (mentorId r) ps (pendingRequests r) (invitedUsers r).
Definition set_pendingRequests (r : room) (qs : gmap string request) : room :=
  Room (room_id r) (room_name r) (mentorId r) (participants r) qs (invitedUsers r).
Definition set_invitedUsers (r : room) (iv : gmap string string) : room :=
  Room (room_id r) (room_name r) (mentorId r) (participants r) (pendingRequests r) iv.
Definition set_rooms (s : state) (rs : gmap string room) : state :=
  State (onlineUsers s) rs (sockets s).
Definition set_sockets (s : state) (ss : gmap string socket) : state :=
  State (onlineUsers s) (mentoriaRooms s) ss.
Definition set_users (s : state) (us : gmap string user) : state :=
  State us (mentoriaRooms s) (sockets s).

(** [room.participants[u] && room.participants[u].status === 'joined'] *)
Definition is_joined (r : room) (u : string) : bool :=
  match participants r !! u with
  | Some p => String.eqb (p_status p) "joined"
  | None => false
  end.

Definition status_msg (socketId status : string) : emit :=
  Emit (to_socket socketId) "mentoria_access_status" (JObj [("status", JStr status)]).

Definition participantDetails (r : room) : list json :=
  (λ up : string * participant,
     JObj [("userId", JStr up.1); ("displayName", JStr (p_displayName up.2))])
  <$> filter (λ up : string * participant, String.eqb (p_status up.2) "joined" = true)
             (map_to_list (participants r)).

Definition broadcastMentoriaRoomParticipants (s : state) (roomId : string) : list emit :=
  match mentoriaRooms s !! roomId with
  | None => []
  | Some r =>
      [Emit (to_room roomId) "mentoria_room_participants_update" (JArr (participantDetails r))]
  end.

Definition broadcastPresenceUpdate (s : state) : emit :=
  Emit to_all "presence_update"
    (JObj ((λ ku : string * user,
              (ku.1, JObj [("displayName", JStr (u_displayName ku.2));
                           ("isOnline", JBool true);
                           ("isMentor", JBool (u_isMentor ku.2))]))
           <$> map_to_list (onlineUsers s))).

Definition addUserToMentoriaRoom (s : state) (sid roomId displayName joinStatus : string)
  : state * list emit :=
  match mentoriaRooms s !! roomId, sockets s !! sid with
  | Some r, Some sk =>
      match userId sk with
      | Some uid =>
          if negb (truthy uid) then (s, [])
          else if is_joined r uid then (s, [])
          else
            let sk' := Socket (userId sk) (isMentor sk) (Some roomId)
                              ({[roomId]} ∪ joinedRooms sk) in
            let r' := set_participants r
                        (<[uid := Participant sid displayName "joined"]> (participants r)) in
            let s' := State (onlineUsers s)
                            (<[roomId := r']> (mentoriaRooms s))
                            (<[sid := sk']> (sockets s)) in
            (s', status_msg sid joinStatus :: broadcastMentoriaRoomParticipants s' roomId)
      | None => (s, [])
      end
  | _, _ => (s, [])
  end.

Definition removeUserFromMentoriaRoom (s : state) (sid roomId : string)
  : state * list emit :=
  match mentoriaRooms s !! roomId, sockets s !! sid with
  | Some r, Some sk =>
      match userId sk with
      | Some uid =>
          if negb (truthy uid) then (s, [])
          else if has_record (participants r) uid then
            let cur := if bool_decide (currentRoomId sk = Some roomId)
                       then None else currentRoomId sk in
            let sk' := Socket (userId sk) (isMentor sk) cur (joinedRooms sk ∖ {[roomId]}) in
            let r' := set_participants r (delete uid (participants r)) in
            (* the mentor leaving changes nothing else: mentorId is kept *)
            let s' := State (onlineUsers s)
                            (<[roomId := r']> (mentoriaRooms s))
                            (<[sid := sk']> (sockets s)) in
            (s', broadcastMentoriaRoomParticipants s' roomId ++ [status_msg sid "not_joined"])
          else (s, [])
      | None => (s, [])
      end
  | _, _ => (s, [])
  end.

(** *** Events and their handlers *)

Inductive event :=
| connection
| register_user (userId displayName : string) (isMentor : bool)
| mentoria_check_access_status (roomId : string)
| mentoria_request_join (roomId : string)
| mentoria_invite_user (roomId targetUserId : string)
| mentoria_accept_invitation (roomId inviterId : string)
| mentoria_approve_request (roomId targetUserId : string)
| mentoria_deny_request (roomId targetUserId : string)
| mentoria_user_ready_for_webrtc (roomId : string)
| mentoria_leave_room (roomId : string)
| webrtc_offer (targetUserId roomId : string) (sdp : json)
| webrtc_answer (targetUserId roomId : string) (sdp : json)
| webrtc_ice_candidate (targetUserId roomId : string) (candidate : json)
| chat_message (roomId messageText : string) (now : nat)
| end_call_1x1 (targetUserId : string)
| disconnect
| no_payload (eventName : string).   (* socket.emit(eventName) with no data *)

Definition result : Type := option (state * list emit).

Definition msg_room_not_found : string := "Sala de mentoria não encontrada.".
Definition msg_already : string := "Você já está na sala ou sua solicitação está pendente.".
Definition msg_invite_denied : string := "Ação não permitida ou usuário não encontrado.".
Definition msg_not_mentor : string := "Você não é o mentor desta sala.".
Definition msg_bad_invitation : string := "Convite inválido ou expirado.".
Definition msg_not_permitted : string := "Ação não permitida.".
Definition msg_request_not_found : string := "Solicitação não encontrada ou você não é o mentor.".
Definition msg_not_in_room : string :=
  "Usuário não autorizado ou não está na sala para iniciar WebRTC.".

Definition registration_failed (sid : string) : emit :=
  Emit (to_socket sid) "registration_failed" (JObj [("message", JStr "Invalid user data.")]).

Definition on_register_user (s : state) (sid : string) (sk : socket)
    (uid displayName : string) (mentor : bool) : result :=
  if truthy uid && truthy displayName then
    let users := <[uid := User sid displayName mentor]> (onlineUsers s) in
    let socks := <[sid := Socket (Some uid) mentor (currentRoomId sk) (joinedRooms sk)]> (sockets s) in
    let finish (rs : gmap string room) : result :=
      let s' := State users rs socks in
      Some (s', [Emit (to_socket sid) "registration_successful"
                      (JObj [("userId", JStr uid); ("socketId", JStr sid)]);
                 broadcastPresenceUpdate s']) in
    if mentor then
      match mentoriaRooms s !! defaultMentoriaRoomId with
      | None => None
      | Some r =>
          if negb (truthy_opt (mentorId r))
          then finish (<[defaultMentoriaRoomId := set_mentorId r (Some uid)]> (mentoriaRooms s))
          else finish (mentoriaRooms s)
      end
    else finish (mentoriaRooms s)
  else
    Some (s, [registration_failed sid]).

Definition on_check_access_status (s : state) (sid : string) (sk : socket)
    (roomId : string) : result :=
  match userId sk with
  | Some uid =>
      if negb (truthy uid) || negb (truthy roomId) then Some (s, [])
      else match mentoriaRooms s !! roomId with
      | None =>
          (* an inherited property is no room: room.participants is undefined *)
          if inherited roomId then None
          else Some (s, [error_message sid msg_room_not_found])
      | Some r =>
          if is_joined r uid then Some (s, [status_msg sid "approved"])
          else if has_record (pendingRequests r) uid
          then Some (s, [status_msg sid "pending_approval"])
          else if has_string (invitedUsers r) uid
          then Some (s, [status_msg sid "invited_pending_join"])
          else Some (s, [status_msg sid "not_joined"])
      end
  | None => Some (s, [])
  end.

Definition on_request_join (s : state) (sid : string) (sk : socket)
    (roomId : string) : result :=
  match userId sk with
  | Some uid =>
      if negb (truthy uid) || negb (truthy roomId) || negb (has_record (onlineUsers s) uid)
      then Some (s, [])
      else match mentoriaRooms s !! roomId with
      | None =>
          if inherited roomId then None
          else Some (s, [error_message sid msg_room_not_found])
      | Some r =>
          (* room.participants[socket.userId], whatever its status, and also
             when it is inherited *)
          if has_record (participants r) uid
          then Some (s, [error_message sid msg_already])
          else
            let displayName := from_option u_displayName "" (onlineUsers s !! uid) in
            let r' := set_pendingRequests r
                        (<[uid := Request sid displayName]> (pendingRequests r)) in
            let s' := set_rooms s (<[roomId := r']> (mentoriaRooms s)) in
            let mentorSocketId :=
              if truthy_opt (mentorId r)
              then mentorId r ≫= (λ m, u_socketId <$> onlineUsers s !! m)
              else None in
            Some (s',
                  status_msg sid "pending_approval" ::
                  if truthy_opt mentorSocketId then
                    [Emit (to_room (default "" mentorSocketId))
                          "mentoria_join_request_to_mentor"
                          (JObj [("requestingUserId", JStr uid);
                                 ("requestingUserDisplayName", JStr displayName);
                                 ("roomId", JStr roomId)])]
                  else [])
      end
  | None => Some (s, [])
  end.

(** A room read through an inherited key has no [mentorId], which differs
    from the identity of every socket flagged as mentor (the flag is set
    together with the identity). *)
Definition on_invite_user (s : state) (sid : string) (sk : socket)
    (roomId targetUserId : string) : result :=
  if negb (isMentor sk) || negb (truthy roomId) || negb (truthy targetUserId)
     || negb (has_record (onlineUsers s) targetUserId)
  then Some (s, [error_message sid msg_invite_denied])
  else match mentoriaRooms s !! roomId, userId sk with
  | Some r, Some uid =>
      if negb (same_id (mentorId r) (Some uid))
      then Some (s, [error_message sid msg_not_mentor])
      else
        let r' := set_invitedUsers r (<[targetUserId := uid]> (invitedUsers r)) in
        let s' := set_rooms s (<[roomId := r']> (mentoriaRooms s)) in
        (* io.to(onlineUsers[targetUserId].socketId) *)
        let target :=
          match onlineUsers s !! targetUserId with
          | Some t => to_room (u_socketId t)
          | None => to_undefined
          end in
        let invitation (inviterName : json) :=
          Emit target "mentoria_invitation_received"
               (JObj [("roomId", JStr roomId);
                      ("inviterId", JStr uid);
                      ("inviterName", inviterName)]) in
        (* onlineUsers[socket.userId].displayName *)
        match onlineUsers s !! uid with
        | Some inviter => Some (s', [invitation (JStr (u_displayName inviter))])
        | None => if inherited uid then Some (s', [invitation JUndefined]) else None
        end
  | _, _ => Some (s, [error_message sid msg_not_mentor])
  end.

Definition on_accept_invitation (s : state) (sid : string) (sk : socket)
    (roomId inviterId : string) : result :=
  match userId sk with
  | Some uid =>
      if negb (truthy uid) || negb (truthy roomId) then Some (s, [])
      else match mentoriaRooms s !! roomId with
      | None =>
          if inherited roomId then None
          else Some (s, [error_message sid msg_bad_invitation])
      | Some r =>
          match invitedUsers r !! uid with
          | Some inviter =>
              if negb (truthy inviter) || negb (String.eqb inviter inviterId)
              then Some (s, [error_message sid msg_bad_invitation])
              else
                let r' := set_invitedUsers r (delete uid (invitedUsers r)) in
                let s' := set_rooms s (<[roomId := r']> (mentoriaRooms s)) in
                (* onlineUsers[socket.userId].displayName *)
                match onlineUsers s !! uid with
                | Some u =>
                    Some (addUserToMentoriaRoom s' sid roomId (u_displayName u) "invited_joined")
                | None =>
                    if inherited uid
                    then Some (addUserToMentoriaRoom s' sid roomId "" "invited_joined")
                    else None
                end
          | None =>
              (* no invitation, or an inherited property, which is not the
                 inviter the caller names *)
              Some (s, [error_message sid msg_bad_invitation])
          end
      end
  | None => Some (s, [])
  end.

Definition on_approve_request (s : state) (sid : string) (sk : socket)
    (roomId targetUserId : string) : result :=
  if negb (isMentor sk) || negb (truthy roomId) || negb (truthy targetUserId)
  then Some (s, [error_message sid msg_not_permitted])
  else match mentoriaRooms s !! roomId with
  | None =>
      (* no room, or an inherited property, whose mentorId is undefined *)
      Some (s, [error_message sid msg_request_not_found])
  | Some r =>
      if negb (same_id (mentorId r) (userId sk))
      then Some (s, [error_message sid msg_request_not_found])
      else match pendingRequests r !! targetUserId with
      | None =>
          (* an inherited property passes the test; it names no socket *)
          if inherited targetUserId then Some (s, [])
          else Some (s, [error_message sid msg_request_not_found])
      | Some q =>
          let r' := set_pendingRequests r (delete targetUserId (pendingRequests r)) in
          let s' := set_rooms s (<[roomId := r']> (mentoriaRooms s)) in
          (* io.sockets.sockets.get(targetUserSocketId) *)
          match sockets s !! q_socketId q with
          | Some _ =>
              Some (addUserToMentoriaRoom s' (q_socketId q) roomId (q_displayName q) "approved")
          | None => Some (s', [])
          end
      end
  end.

Definition on_deny_request (s : state) (sid : string) (sk : socket)
    (roomId targetUserId : string) : result :=
  if negb (isMentor sk) || negb (truthy roomId) || negb (truthy targetUserId)
  then Some (s, [error_message sid msg_not_permitted])
  else match mentoriaRooms s !! roomId with
  | None => Some (s, [error_message sid msg_request_not_found])
  | Some r =>
      if negb (same_id (mentorId r) (userId sk))
      then Some (s, [error_message sid msg_request_not_found])
      else match pendingRequests r !! targetUserId with
      | None =>
          if inherited targetUserId
          then Some (s, [Emit to_undefined "mentoria_access_status"
                              (JObj [("status", JStr "denied")])])
          else Some (s, [error_message sid msg_request_not_found])
      | Some q =>
          let r' := set_pendingRequests r (delete targetUserId (pendingRequests r)) in
          Some (set_rooms s (<[roomId := r']> (mentoriaRooms s)),
                [Emit (to_room (q_socketId q)) "mentoria_access_status"
                      (JObj [("status", JStr "denied")])])
      end
  end.

Definition initiate (socketId peer : string) : emit :=
  Emit (to_room socketId) "mentoria_initiate_webrtc_with_peer" (JObj [("peerUserId", JStr peer)]).

Definition on_user_ready_for_webrtc (s : state) (sid : string) (sk : socket)
    (roomId : string) : result :=
  match userId sk with
  | Some uid =>
      if negb (truthy uid) || negb (truthy roomId) then Some (s, [])
      else match mentoriaRooms s !! roomId with
      | None =>
          if inherited roomId then None
          else Some (s, [error_message sid msg_not_in_room])
      | Some r =>
          if negb (is_joined r uid) then Some (s, [error_message sid msg_not_in_room])
          else
            Some (s,
              flat_map (λ up : string * participant,
                          if negb (String.eqb up.1 uid) && String.eqb (p_status up.2) "joined"
                          then [initiate sid up.1; initiate (p_socketId up.2) uid]
                          else [])
                       (map_to_list (participants r))
              ++ broadcastMentoriaRoomParticipants s roomId)
      end
  | None => Some (s, [])
  end.

(** [removeUserFromMentoriaRoom] reads [room.participants] as soon as the
    room and the socket's identity are truthy. *)
Definition on_leave_room (s : state) (sid : string) (sk : socket) (roomId : string) : result :=
  if truthy_opt (userId sk) && truthy roomId
  then if inherited_only (mentoriaRooms s) roomId then None
       else Some (removeUserFromMentoriaRoom s sid roomId)
  else Some (s, []).

(** The three connection-setup relays differ only in the event name and in
    the name of the payload field. *)
Definition relay (s : state) (sk : socket) (kind field : string)
    (targetUserId roomId : string) (payload : json) : list emit :=
  match userId sk with
  | Some uid =>
      if negb (truthy uid) || negb (truthy targetUserId) || negb (json_truthy payload) then []
      else match onlineUsers s !! targetUserId with
      | Some target =>
          if truthy (u_socketId target) then
            [Emit (to_room (u_socketId target)) kind
                  (JObj [("senderUserId", JStr uid); (field, payload); ("roomId", JStr roomId)])]
          else []
      | None => []   (* onlineUsers[targetUserId]?.socketId is undefined *)
      end
  | None => []
  end.

Definition on_chat_message (s : state) (sk : socket)
    (roomId messageText : string) (now : nat) : option (list emit) :=
  match userId sk with
  | Some uid =>
      if negb (truthy uid) || negb (truthy roomId) then Some []
      else match mentoriaRooms s !! roomId with
      | None =>
          if inherited roomId && truthy messageText then None else Some []
      | Some r =>
          if negb (truthy messageText) then Some []
          else if is_joined r uid then
            let payload :=
              JObj [("roomId", JStr roomId);
                    ("senderUserId", JStr uid);
                    ("senderDisplayName",
                     from_option (λ u, JStr (u_displayName u)) JUndefined (onlineUsers s !! uid));
                    ("messageText", JStr messageText);
                    ("timestamp", JNum now)] in
            Some ((λ up : string * participant,
                     Emit (to_room (p_socketId up.2)) "chat_message" payload)
                  <$> filter (λ up : string * participant,
                                String.eqb (p_status up.2) "joined" = true)
                             (map_to_list (participants r)))
          else Some []
      end
  | None => Some []
  end.

Definition on_end_call_1x1 (s : state) (sk : socket) (targetUserId : string) : list emit :=
  match userId sk with
  | Some uid =>
      if negb (truthy uid) || negb (truthy targetUserId) then []
      else match onlineUsers s !! targetUserId with
      | Some target =>
          if truthy (u_socketId target) then
            [Emit (to_room (u_socketId target)) "call_ended_notification"
                  (JObj [("senderUserId", JStr uid)])]
          else []
      | None => []
      end
  | None => []
  end.

(** [Object.values(mentoriaRooms).find(r => r.participants[uid])] *)
Definition find_room_of (s : state) (uid : string) : option room :=
  snd <$> List.find (λ kr : string * room, has_record (participants kr.2) uid)
                    (map_to_list (mentoriaRooms s)).

(** The handler runs with the socket object still at hand; the transport
    forgets the socket once the handler is done. *)
Definition on_disconnect (s : state) (sid : string) (sk : socket) : result :=
  let forget (s1 : state) := set_sockets s1 (delete sid (sockets s1)) in
  let finish (s1 : state) (out : list emit) (uid : string) : result :=
    let s2 := set_users s1 (delete uid (onlineUsers s1)) in
    Some (forget s2, out ++ [broadcastPresenceUpdate s2]) in
  match userId sk with
  | Some uid =>
      if truthy uid then
        match find_room_of s uid with
        | Some r =>
            if inherited_only (mentoriaRooms s) (room_id r) then None
            else let '(s1, out) := removeUserFromMentoriaRoom s sid (room_id r) in
                 finish s1 out uid
        | None => finish s [] uid
        end
      else Some (forget s, [])
  | None => Some (forget s, [])
  end.

(** The listeners that read a field of their payload behind a test of the
    socket's identity, and those that read it behind the mentor flag. *)
Definition identity_guarded : list string :=
  ["mentoria_check_access_status"; "mentoria_request_join";
   "mentoria_accept_invitation"; "mentoria_user_ready_for_webrtc";
   "mentoria_leave_room"; "webrtc_offer"; "webrtc_answer";
   "webrtc_ice_candidate"; "chat_message"; "end_call_1x1"].

(** An event sent without a payload: [data] is [undefined], and the first
    read of [data.roomId] or [data.targetUserId] throws. *)
Definition on_no_payload (s : state) (sid : string) (sk : socket)
    (eventName : string) : result :=
  if String.eqb eventName "register_user" then Some (s, [registration_failed sid])
  else if existsb (String.eqb eventName) identity_guarded then
    if truthy_opt (userId sk) then None else Some (s, [])
  else if String.eqb eventName "mentoria_invite_user" then
    if isMentor sk then None else Some (s, [error_message sid msg_invite_denied])
  else if String.eqb eventName "mentoria_approve_request"
          || String.eqb eventName "mentoria_deny_request" then
    if isMentor sk then None else Some (s, [error_message sid msg_not_permitted])
  else Some (s, []).   (* no listener of that name *)

(** One event arriving on socket [sid].  Events on a socket the transport
    does not know are not delivered to any handler. *)
Definition handle (s : state) (sid : string) (ev : event) : result :=
  match sockets s !! sid with
  | None =>
      match ev with
      | connection => Some (set_sockets s (<[sid := new_socket]> (sockets s)), [])
      | _ => Some (s, [])
      end
  | Some sk =>
      match ev with
      | connection => Some (s, [])
      | register_user uid dn m => on_register_user s sid sk uid dn m
      | mentoria_check_access_status rid => on_check_access_status s sid sk rid
      | mentoria_request_join rid => on_request_join s sid sk rid
      | mentoria_invite_user rid t => on_invite_user s sid sk rid t
      | mentoria_accept_invitation rid i => on_accept_invitation s sid sk rid i
      | mentoria_approve_request rid t => on_approve_request s sid sk rid t
      | mentoria_deny_request rid t => on_deny_request s sid sk rid t
      | mentoria_user_ready_for_webrtc rid => on_user_ready_for_webrtc s sid sk rid
      | mentoria_leave_room rid => on_leave_room s sid sk rid
      | webrtc_offer t rid sdp => Some (s, relay s sk "webrtc_offer" "sdp" t rid sdp)
      | webrtc_answer t rid sdp => Some (s, relay s sk "webrtc_answer" "sdp" t rid sdp)
      | webrtc_ice_candidate t rid c =>
          Some (s, relay s sk "webrtc_ice_candidate" "candidate" t rid c)
      | chat_message rid txt now => pair s <$> on_chat_message s sk rid txt now
      | end_call_1x1 t => Some (s, on_end_call_1x1 s sk t)
      | disconnect => on_disconnect s sid sk
      | no_payload eventName => on_no_payload s sid sk eventName
      end
  end.

(** A run of the server: the events, each with the socket it arrived on,
    handled one after the other (handlers run to completion). *)
Fixpoint run (s : state) (evs : list (string * event)) : option state :=
  match evs with
  | [] => Some s
  | (sid, ev) :: rest =>
      match handle s sid ev with
      | Some (s', _) => run s' rest
      | None => None
      end
  end.

(** *** Membership status of a user in a room

    The three sets of the access controller: the membership set (a
    participant record with status 'joined'), the pending-request set and
    the invitation set. *)

Definition pending (r : room) (u : string) : bool :=
  bool_decide (is_Some (pendingRequests r !! u)).

Definition invited (r : room) (u : string) : bool :=
  bool_decide (is_Some (invitedUsers r !! u)).

(** In how many of the three sets [u] appears. *)
Definition memberships (r : room) (u : string) : nat :=
  (Nat.b2n (is_joined r u) + Nat.b2n (pending r u) + Nat.b2n (invited r u))%nat.

(** Events issued from the source state the access controller expects: a
    join request by a user who holds no invitation to the room, an
    invitation to a user who is neither a member nor pending, an approval
    of a request whose recorded socket, if still connected, is still bound
    to the requesting identity. *)
Definition respects (s : state) (sid : string) (ev : event) : bool :=
  match ev with
  | mentoria_request_join rid =>
      match sockets s !! sid ≫= userId, mentoriaRooms s !! rid with
      | Some uid, Some r => negb (invited r uid)
      | _, _ => true
      end
  | mentoria_invite_user rid t =>
      match mentoriaRooms s !! rid with
      | Some r => negb (is_joined r t) && negb (pending r t)
      | None => true
      end
  | mentoria_approve_request rid t =>
      match mentoriaRooms s !! rid ≫= (λ r, pendingRequests r !! t) with
      | Some q =>
          match sockets s !! q_socketId q with
          | Some sk => bool_decide (userId sk = Some t)
          | None => true
          end
      | None => true
      end
  | _ => true
  end.

Fixpoint guarded (s : state) (evs : list (string * event)) : bool :=
  match evs with
  | [] => true
  | (sid, ev) :: rest =>
      respects s sid ev &&
      match handle s sid ev with
      | Some (s', _) => guarded s' rest
      | None => true
      end
  end.

(** *** Scenarios *)

(** A mentor on socket s1 and an ordinary user on socket s2. *)
Definition mentor_and_alice : list (string * event) :=
  [("s1", connection); ("s1", register_user "mentor" "Mentor" true);
   ("s2", connection); ("s2", register_user "alice" "Alice" false)].

Definition after (evs : list (string * event)) : state := default init (run init evs).

(** What handling [ev] on socket [sid] gives after the events [evs]. *)
Definition then_handle (evs : list (string * event)) (sid : string) (ev : event) : result :=
  run init evs ≫= λ s, handle s sid ev.

(** Observations of a room of the registry. *)
Definition joined_in (s : state) (rid u : string) : bool :=
  from_option (λ r, is_joined r u) false (mentoriaRooms s !! rid).
Definition pending_in (s : state) (rid u : string) : bool :=
  from_option (λ r, pending r u) false (mentoriaRooms s !! rid).
Definition invited_in (s : state) (rid u : string) : bool :=
  from_option (λ r, invited r u) false (mentoriaRooms s !! rid).
Definition authority_of (s : state) (rid : string) : option string :=
  mentoriaRooms s !! rid ≫= mentorId.
Definition registered (s : state) (u : string) : bool :=
  bool_decide (is_Some (onlineUsers s !! u)).

(** A user registers while the primary room has no mentor. *)
Definition alice_alone : list (string * event) :=
  [("s1", connection); ("s1", register_user "alice" "Alice" false)].

(** The mentor invites alice. *)
Definition alice_invited : list (string * event) :=
  mentor_and_alice ++ [("s1", mentoria_invite_user defaultMentoriaRoomId "alice")].

(** Alice asks to join, then her connection drops. *)
Definition alice_pending : list (string * event) :=
  mentor_and_alice ++ [("s2", mentoria_request_join defaultMentoriaRoomId)].
Definition alice_gone : list (string * event) :=
  alice_pending ++ [("s2", disconnect)].

(** The mentor asks to join the primary room, approves the own request and
    leaves again. *)
Definition mentor_in : list (string * event) :=
  [("s1", connection); ("s1", register_user "mentor" "Mentor" true);
   ("s1", mentoria_request_join defaultMentoriaRoomId);
   ("s1", mentoria_approve_request defaultMentoriaRoomId "mentor")].
Definition mentor_in_and_out : list (string * event) :=
  mentor_in ++ [("s1", mentoria_leave_room defaultMentoriaRoomId)].

(** The mentor registers and the connection drops. *)
Definition mentor_gone : list (string * event) :=
  [("s1", connection); ("s1", register_user "mentor" "Mentor" true); ("s1", disconnect)].

(** The target of a connection-setup relay. *)
Definition relay_target (ev : event) : option string :=
  match ev with
  | webrtc_offer t _ _ | webrtc_answer t _ _ | webrtc_ice_candidate t _ _ => Some t
  | _ => None
  end.

Definition primary_room (s : state) : room :=
  default (Room defaultMentoriaRoomId "Sala de Mentoria Principal" None ∅ ∅ ∅)
          (mentoriaRooms s !! defaultMentoriaRoomId).

(** The messages the last of these events emits. *)
Definition emits_of (evs : list (string * event)) (sid : string) (ev : event) : list emit :=
  from_option snd [] (then_handle evs sid ev).

(** *** Notions used by the properties *)


(** [r'] keeps the mentor of [r], if [r] has one. *)
Definition mentor_kept (r r' : room) : Prop :=
  ∀ m, mentorId r = Some m → truthy m = true → mentorId r' = Some m.

(** Every room of [rs] is still in [rs'], under the same mentor. *)
Definition rooms_le (rs rs' : gmap string room) : Prop :=
  ∀ rid r, rs !! rid = Some r → ∃ r', rs' !! rid = Some r' ∧ mentor_kept r r'.

(** At most one status for every user. *)
Definition exclusive (r : room) : Prop := ∀ u, (memberships r u ≤ 1)%nat.

Definition rooms_exclusive (rs : gmap string room) : Prop :=
  map_Forall (λ _ r, exclusive r) rs.

(** The mentor denies alice's request; the approval that follows finds
    nothing. *)
Definition alice_denied : list (string * event) :=
  alice_pending ++ [("s1", mentoria_deny_request defaultMentoriaRoomId "alice")].

(** Alice asks to join and the mentor approves. *)
Definition alice_approved : list (string * event) :=
  alice_pending ++ [("s1", mentoria_approve_request defaultMentoriaRoomId "alice")].

(** Two runs that leave the expected source states. *)
Definition alice_joined_then_invited : list (string * event) :=
  mentor_and_alice ++
  [("s2", mentoria_request_join defaultMentoriaRoomId);
   ("s1", mentoria_approve_request defaultMentoriaRoomId "alice");
   ("s1", mentoria_invite_user defaultMentoriaRoomId "alice")].

Definition socket_rebound : list (string * event) :=
  mentor_and_alice ++
  [("s2", mentoria_request_join defaultMentoriaRoomId);
   ("s2", register_user "bob" "Bob" false);
   ("s1", mentoria_invite_user defaultMentoriaRoomId "bob");
   ("s1", mentoria_approve_request defaultMentoriaRoomId "alice")].

End Mentoria.

(** ** The open-join server *)

Module OpenJoin.

Record user := User {
  u_socketId : string;
  u_displayName : string;
  u_currentRoomId : option string }.

Record room := Room {
  room_id : string;
  room_name : string;
  ownerId : string;
  participants : gmap string string }.

Record socket := Socket {
  userId : option string;
  currentRoomId : option string;
  joinedRooms : gset string }.

Record state := State {
  onlineUsers : gmap string user;
  rooms : gmap string room;
  sockets : gmap string socket }.

Definition init : state := State ∅ ∅ ∅.

Definition new_socket : socket := Socket None None ∅.

Definition capacity : nat := 20.

Definition set_participants (r : room) (ps : gmap string string) : room :=
  Room (room_id r) (room_name r) (ownerId r) ps.
Definition set_currentRoomId (u : user) (c : option string) : user :=
  User (u_socketId u) (u_displayName u) c.
Definition set_sockets (s : state) (ss : gmap string socket) : state :=
  State (onlineUsers s) (rooms s) ss.

Definition result : Type := option (state * list emit).

Definition msg_not_registered : string := "User not registered.".
Definition msg_room_not_found : string := "Sala não encontrada.".
Definition msg_room_full : string := "A sala está cheia.".
Definition msg_not_permitted : string := "Ação não permitida.".

Definition displayName_of (s : state) (uid : string) : json :=
  from_option (λ u, JStr (u_displayName u)) JUndefined (onlineUsers s !! uid).

Definition getRoomParticipantDetails (s : state) (roomId : string) : json :=
  match rooms s !! roomId with
  | None => JObj []
  | Some r =>
      JObj ((λ up : string * string,
               (up.1, JObj [("displayName", displayName_of s up.1);
                            ("socketId",
                             from_option (λ u, JStr (u_socketId u)) JUndefined
                                         (onlineUsers s !! up.1))]))
            <$> map_to_list (participants r))
  end.

Definition broadcastPresenceUpdate (s : state) : emit :=
  Emit to_all "presence_update"
    (JObj ((λ ku : string * user,
              (ku.1, JObj [("displayName", JStr (u_displayName ku.2));
                           ("isOnline", JBool true);
                           ("currentRoomId",
                            from_option JStr JNull (u_currentRoomId ku.2))]))
           <$> map_to_list (onlineUsers s))).

(** [leaveRoom] and [joinRoom] read [rooms[roomId].participants] once
    [rooms[roomId]] and [onlineUsers[socket.userId]] are truthy; on a room id
    that is only inherited this is a read on [undefined].  The callers test
    [leaveRoom_throws] before they call [leaveRoom]. *)
Definition leaveRoom_throws (s : state) (sid roomId : string) : bool :=
  match sockets s !! sid ≫= userId with
  | Some uid => inherited_only (rooms s) roomId && has_record (onlineUsers s) uid
  | None => false
  end.

(** A socket that never registered has no [userId]; the stores hold nothing
    for it. *)
Definition leaveRoom (s : state) (sid roomId : string) : state * list emit :=
  match sockets s !! sid with
  | Some sk =>
      match userId sk with
      | Some uid =>
          match rooms s !! roomId with
          | Some r =>
              if negb (has_record (onlineUsers s) uid)
                 || negb (has_string (participants r) uid) then (s, [])
              else
                let sk' := Socket (userId sk) None (joinedRooms sk ∖ {[roomId]}) in
                let r' := set_participants r (delete uid (participants r)) in
                (* onlineUsers[socket.userId].currentRoomId = null: on the
                   stored record, or on the inherited property, which is
                   outside the store *)
                let users :=
                  match onlineUsers s !! uid with
                  | Some u => <[uid := set_currentRoomId u None]> (onlineUsers s)
                  | None => onlineUsers s
                  end in
                let rs := if bool_decide (size (participants r') = 0)
                          then delete roomId (rooms s)
                          else <[roomId := r']> (rooms s) in
                (State users rs (<[sid := sk']> (sockets s)),
                 [Emit (to_socket sid) "left_room_successfully" (JObj [("roomId", JStr roomId)]);
                  Emit (to_room roomId) "participant_left"
                       (JObj [("userId", JStr uid); ("displayName", displayName_of s uid)])])
          | None => (s, [])
          end
      | None => (s, [])
      end
  | None => (s, [])
  end.

Definition joinRoom (s : state) (sid roomId : string) : result :=
  match sockets s !! sid with
  | Some sk =>
      match userId sk with
      | Some uid =>
          match rooms s !! roomId with
          | Some r =>
              if negb (has_record (onlineUsers s) uid) then Some (s, [])
              else if bool_decide (capacity ≤ size (participants r))%nat
              then Some (s, [error_message sid msg_room_full])
              else
                (* leave the previous room, if any *)
                let previous : result :=
                  match currentRoomId sk with
                  | Some cur =>
                      if truthy cur && negb (String.eqb cur roomId)
                      then if leaveRoom_throws s sid cur then None
                           else Some (leaveRoom s sid cur)
                      else Some (s, [])
                  | None => Some (s, [])
                  end in
                match previous with
                | Some (s1, out1) =>
                    match rooms s1 !! roomId, sockets s1 !! sid with
                    | Some r1, Some sk1 =>
                        let r' := set_participants r1 (<[uid := sid]> (participants r1)) in
                        let sk' := Socket (userId sk1) (Some roomId) ({[roomId]} ∪ joinedRooms sk1) in
                        (* onlineUsers[socket.userId].currentRoomId = roomId *)
                        let users :=
                          match onlineUsers s1 !! uid with
                          | Some u1 => <[uid := set_currentRoomId u1 (Some roomId)]> (onlineUsers s1)
                          | None => onlineUsers s1
                          end in
                        let s' := State users
                                        (<[roomId := r']> (rooms s1))
                                        (<[sid := sk']> (sockets s1)) in
                        Some (s',
                              out1 ++
                              [Emit (to_socket sid) "joined_room_successfully"
                                    (JObj [("roomId", JStr roomId);
                                           ("roomName", JStr (room_name r'));
                                           ("participants", getRoomParticipantDetails s' roomId)]);
                               Emit (to_room_except roomId sid) "participant_joined"
                                    (JObj [("userId", JStr uid);
                                           ("displayName", displayName_of s' uid);
                                           ("socketId", JStr sid)])])
                    | _, _ => None
                    end
                | None => None
                end
          | None =>
              (* Object.keys(rooms[roomId].participants) on an inherited
                 property *)
              if inherited roomId && has_record (onlineUsers s) uid then None
              else Some (s, [])
          end
      | None => Some (s, [])
      end
  | None => Some (s, [])
  end.

Inductive event :=
| connection
| register_user (userId displayName : string)
| create_room (roomName : string) (generatedId : string)
| join_room (roomId : string)
| leave_room
| webrtc_offer (targetUserId roomId : string) (sdp : json)
| webrtc_answer (targetUserId roomId : string) (sdp : json)
| webrtc_ice_candidate (targetUserId roomId : string) (candidate : json)
| chat_message (roomId messageText : string) (now : nat)
| mentor_mute_participant (roomId targetUserId : string)
| mentor_remove_participant (roomId targetUserId : string)
| disconnect
| no_payload (eventName : string).   (* socket.emit(eventName) with no data *)

Definition registration_failed (sid : string) : emit :=
  Emit (to_socket sid) "registration_failed"
       (JObj [("message", JStr "Invalid user data for registration.")]).

Definition on_register_user (s : state) (sid : string) (sk : socket)
    (uid displayName : string) : result :=
  if truthy uid && truthy displayName then
    let s' := State (<[uid := User sid displayName None]> (onlineUsers s))
                    (rooms s)
                    (<[sid := Socket (Some uid) (currentRoomId sk) (joinedRooms sk)]> (sockets s)) in
    Some (s', [broadcastPresenceUpdate s';
               Emit (to_socket sid) "registration_successful"
                    (JObj [("userId", JStr uid); ("socketId", JStr sid)])])
  else
    Some (s, [registration_failed sid]).

(** [generatedId] is the value of the time-and-random room id expression. *)
Definition on_create_room (s : state) (sid : string) (sk : socket)
    (roomName generatedId : string) : result :=
  if negb (truthy_opt (userId sk)) then Some (s, [error_message sid msg_not_registered])
  else
    let uid := default "" (userId sk) in
    let nm := if truthy roomName then roomName
              else "Mentoria de " +:+
                   match onlineUsers s !! uid with
                   | Some u => if truthy (u_displayName u) then u_displayName u else uid
                   | None => uid
                   end in
    let s' := State (onlineUsers s)
                    (<[generatedId := Room generatedId nm uid ∅]> (rooms s))
                    (sockets s) in
    joinRoom s' sid generatedId.

Definition on_join_room (s : state) (sid : string) (sk : socket) (roomId : string) : result :=
  if negb (truthy_opt (userId sk)) then Some (s, [error_message sid msg_not_registered])
  else if has_record (rooms s) roomId then joinRoom s sid roomId
  else Some (s, [error_message sid msg_room_not_found]).

Definition on_leave_room (s : state) (sid : string) (sk : socket) : result :=
  match currentRoomId sk with
  | Some cur =>
      if truthy cur
      then if leaveRoom_throws s sid cur then None else Some (leaveRoom s sid cur)
      else Some (s, [])
  | None => Some (s, [])
  end.

(** The relays of this server check nothing about the sender. *)
Definition relay (s : state) (sk : socket) (kind field : string)
    (targetUserId roomId : string) (payload : json) : list emit :=
  match onlineUsers s !! targetUserId with
  | Some target =>
      if truthy (u_socketId target) then
        [Emit (to_room (u_socketId target)) kind
              (JObj [("senderUserId", from_option JStr JUndefined (userId sk));
                     (field, payload);
                     ("roomId", JStr roomId)])]
      else []
  | None => []   (* onlineUsers[targetUserId]?.socketId is undefined *)
  end.

Definition on_chat_message (s : state) (sk : socket)
    (roomId messageText : string) (now : nat) : option (list emit) :=
  match userId sk with
  | Some uid =>
      if negb (truthy uid) || negb (truthy roomId) then Some []
      else match rooms s !! roomId with
      | None => if inherited roomId then None else Some []
      | Some r =>
          (* rooms[roomId].participants[socket.userId], own or inherited *)
          if has_string (participants r) uid then
            let payload :=
              JObj [("senderUserId", JStr uid);
                    ("senderDisplayName", displayName_of s uid);
                    ("messageText", JStr messageText);
                    ("timestamp", JNum now)] in
            Some ((λ up : string * string, Emit (to_room up.2) "chat_message" payload)
                  <$> map_to_list (participants r))
          else Some []
      end
  | None => Some []
  end.

(** The guard shared by the two mentor controls: the caller is registered,
    the room exists and the caller owns it.  A room read through an
    inherited key has no [ownerId]. *)
Definition owner_of (s : state) (sk : socket) (roomId : string) : option string :=
  match userId sk with
  | Some uid =>
      if negb (truthy uid) then None
      else match rooms s !! roomId with
           | Some r =>
               if has_record (onlineUsers s) uid && String.eqb (ownerId r) uid
               then Some uid else None
           | None => None
           end
  | None => None
  end.

Definition on_mentor_mute_participant (s : state) (sid : string) (sk : socket)
    (roomId targetUserId : string) : result :=
  match owner_of s sk roomId with
  | None => Some (s, [error_message sid msg_not_permitted])
  | Some uid =>
      match onlineUsers s !! targetUserId, rooms s !! roomId with
      | Some target, Some r =>
          if truthy (u_socketId target) && has_string (participants r) targetUserId
          then Some (s, [Emit (to_room (u_socketId target)) "force_mute" (JObj [("by", JStr uid)])])
          else Some (s, [])
      | _, _ => Some (s, [])
      end
  end.

Definition on_mentor_remove_participant (s : state) (sid : string) (sk : socket)
    (roomId targetUserId : string) : result :=
  match owner_of s sk roomId with
  | None => Some (s, [error_message sid msg_not_permitted])
  | Some uid =>
      match onlineUsers s !! targetUserId, rooms s !! roomId with
      | Some target, Some r =>
          match sockets s !! u_socketId target with
          | Some _ =>
              if has_string (participants r) targetUserId then
                let '(s', out) := leaveRoom s (u_socketId target) roomId in
                Some (s', Emit (to_socket (u_socketId target)) "removed_from_room"
                               (JObj [("roomId", JStr roomId); ("by", JStr uid)]) :: out)
              else Some (s, [])
          | None => Some (s, [])
          end
      | _, _ => Some (s, [])
      end
  end.

Definition on_disconnect (s : state) (sid : string) (sk : socket) : result :=
  let forget (s1 : state) := set_sockets s1 (delete sid (sockets s1)) in
  let finish (left : state * list emit) (uid : string) : result :=
    let s2 := State (delete uid (onlineUsers left.1)) (rooms left.1) (sockets left.1) in
    Some (forget s2, left.2 ++ [broadcastPresenceUpdate s2]) in
  match userId sk with
  | Some uid =>
      if truthy uid then
        match currentRoomId sk with
        | Some cur =>
            if truthy cur
            then if leaveRoom_throws s sid cur then None
                 else finish (leaveRoom s sid cur) uid
            else finish (s, []) uid
        | None => finish (s, []) uid
        end
      else Some (forget s, [])
  | None => Some (forget s, [])
  end.

(** An event sent without a payload: [data] is [undefined], and the first
    read of one of its fields throws. *)
Definition on_no_payload (s : state) (sid : string) (sk : socket)
    (eventName : string) : result :=
  if String.eqb eventName "register_user" then Some (s, [registration_failed sid])
  else if String.eqb eventName "create_room" || String.eqb eventName "join_room" then
    if truthy_opt (userId sk) then None
    else Some (s, [error_message sid msg_not_registered])
  else if String.eqb eventName "leave_room" then on_leave_room s sid sk
  else if existsb (String.eqb eventName) ["webrtc_offer"; "webrtc_answer"; "webrtc_ice_candidate"]
  then None
  else if String.eqb eventName "chat_message" then
    if truthy_opt (userId sk) then None else Some (s, [])
  else if String.eqb eventName "mentor_mute_participant"
          || String.eqb eventName "mentor_remove_participant" then
    if truthy_opt (userId sk) then None
    else Some (s, [error_message sid msg_not_permitted])
  else Some (s, []).   (* no listener of that name *)

Definition handle (s : state) (sid : string) (ev : event) : result :=
  match sockets s !! sid with
  | None =>
      match ev with
      | connection => Some (set_sockets s (<[sid := new_socket]> (sockets s)), [])
      | _ => Some (s, [])
      end
  | Some sk =>
      match ev with
      | connection => Some (s, [])
      | register_user uid dn => on_register_user s sid sk uid dn
      | create_room nm gen => on_create_room s sid sk nm gen
      | join_room rid => on_join_room s sid sk rid
      | leave_room => on_leave_room s sid sk
      | webrtc_offer t rid sdp => Some (s, relay s sk "webrtc_offer" "sdp" t rid sdp)
      | webrtc_answer t rid sdp => Some (s, relay s sk "webrtc_answer" "sdp" t rid sdp)
      | webrtc_ice_candidate t rid c =>
          Some (s, relay s sk "webrtc_ice_candidate" "candidate" t rid c)
      | chat_message rid txt now => pair s <$> on_chat_message s sk rid txt now
      | mentor_mute_participant rid t => on_mentor_mute_participant s sid sk rid t
      | mentor_remove_participant rid t => on_mentor_remove_participant s sid sk rid t
      | disconnect => on_disconnect s sid sk
      | no_payload eventName => on_no_payload s sid sk eventName
      end
  end.

Fixpoint run (s : state) (evs : list (string * event)) : option state :=
  match evs with
  | [] => Some s
  | (sid, ev) :: rest =>
      match handle s sid ev with
      | Some (s', _) => run s' rest
      | None => None
      end
  end.

(** The target of a connection-setup relay. *)
Definition relay_target (ev : event) : option string :=
  match ev with
  | webrtc_offer t _ _ | webrtc_answer t _ _ | webrtc_ice_candidate t _ _ => Some t
  | _ => None
  end.

(** Whether [uid] is in the participants of room [rid]. *)
Definition member_of (s : state) (rid uid : string) : bool :=
  from_option (λ r, bool_decide (is_Some (participants r !! uid))) false (rooms s !! rid).

Definition after (evs : list (string * event)) : state := default init (run init evs).

(** *** Scenarios *)

(** Alice opens room r1, bob opens room r2. *)
Definition two_rooms : list (string * event) :=
  [("s1", connection); ("s1", register_user "alice" "Alice"); ("s1", create_room "Um" "r1");
   ("s2", connection); ("s2", register_user "bob" "Bob"); ("s2", create_room "Dois" "r2")].

(** Alice then registers on a second socket and joins bob's room there. *)
Definition alice_on_two_sockets : list (string * event) :=
  two_rooms ++
  [("s3", connection); ("s3", register_user "alice" "Alice"); ("s3", join_room "r2")].


(** Alice opens room r1 and is alone in it. *)
Definition alice_room : list (string * event) :=
  [("s1", connection); ("s1", register_user "alice" "Alice"); ("s1", create_room "Um" "r1")].

(** The state and the notices of the join proper. *)
Definition joined_state (s : state) (sid : string) (sk : socket) (uid : string)
    (u : user) (rid : string) (r : room) : state :=
  State (<[uid := set_currentRoomId u (Some rid)]> (onlineUsers s))
        (<[rid := set_participants r (<[uid := sid]> (participants r))]> (rooms s))
        (<[sid := Socket (userId sk) (Some rid) ({[rid]} ∪ joinedRooms sk)]> (sockets s)).

Definition join_notices (s' : state) (sid uid rid : string) (r : room) : list emit :=
  [Emit (to_socket sid) "joined_room_successfully"
        (JObj [("roomId", JStr rid);
               ("roomName", JStr (room_name r));
               ("participants", getRoomParticipantDetails s' rid)]);
   Emit (to_room_except rid sid) "participant_joined"
        (JObj [("userId", JStr uid);
               ("displayName", displayName_of s' uid);
               ("socketId", JStr sid)])].

End OpenJoin.

(** * Properties of the access-controlled server *)

Section MentoriaFacts.
Import Mentoria.

Implicit Types (s : state) (r : room) (sk : socket) (sid uid roomId : string).

(** ** Admission *)

Lemma is_joined_insert r uid sid dn :
  is_joined (set_participants r (<[uid := Participant sid dn "joined"]> (participants r))) uid = true.
Proof. unfold is_joined; simpl. by rewrite lookup_insert_eq. Qed.

(** The early return of the admission. *)
Lemma addUser_already_joined s sid roomId displayName joinStatus sk uid r :
  sockets s !! sid = Some sk →
  userId sk = Some uid →
  mentoriaRooms s !! roomId = Some r →
  is_joined r uid = true →
  addUserToMentoriaRoom s sid roomId displayName joinStatus = (s, []).
Proof.
  intros Hsk Hu Hr Hj. unfold addUserToMentoriaRoom.
  rewrite Hr, Hsk, Hu, Hj. by destruct (negb (truthy uid)).
Qed.

(** C6: admitting a user who is already joined changes nothing (the
    membership set keeps its single entry for the user) and emits nothing,
    neither the status notice nor the participant-update broadcast. *)
Theorem admit_idempotent s sid roomId displayName joinStatus sk uid r :
  sockets s !! sid = Some sk →
  userId sk = Some uid →
  mentoriaRooms s !! roomId = Some r →
  is_joined r uid = true →
  addUserToMentoriaRoom s sid roomId displayName joinStatus = (s, []).
Proof. apply addUser_already_joined. Qed.

(** Two admissions in a row: the second finds the user joined, whatever the
    first one did. *)
Lemma admit_twice s sid roomId dn1 js1 dn2 js2 :
  addUserToMentoriaRoom (addUserToMentoriaRoom s sid roomId dn1 js1).1 sid roomId dn2 js2
  = ((addUserToMentoriaRoom s sid roomId dn1 js1).1, []).
Proof.
  unfold addUserToMentoriaRoom at 2 3.
  destruct (mentoriaRooms s !! roomId) as [r|] eqn:Hr; simpl.
  2: { unfold addUserToMentoriaRoom. by rewrite Hr. }
  destruct (sockets s !! sid) as [sk|] eqn:Hsk; simpl.
  2: { unfold addUserToMentoriaRoom. by rewrite Hr, Hsk. }
  destruct (userId sk) as [uid|] eqn:Hu; simpl.
  2: { unfold addUserToMentoriaRoom. by rewrite Hr, Hsk, Hu. }
  destruct (truthy uid) eqn:Ht; simpl.
  2: { unfold addUserToMentoriaRoom. by rewrite Hr, Hsk, Hu, Ht. }
  destruct (is_joined r uid) eqn:Hj; simpl.
  { eapply addUser_already_joined; eauto. }
  eapply addUser_already_joined; simpl.
  - apply lookup_insert_eq.
  - reflexivity.
  - apply lookup_insert_eq.
  - apply is_joined_insert.
Qed.

(** ** Join requests *)

Lemma handle_connected s sid sk ev :
  sockets s !! sid = Some sk →
  handle s sid ev =
    match ev with
    | connection => Some (s, [])
    | register_user uid dn m => on_register_user s sid sk uid dn m
    | mentoria_check_access_status rid => on_check_access_status s sid sk rid
    | mentoria_request_join rid => on_request_join s sid sk rid
    | mentoria_invite_user rid t => on_invite_user s sid sk rid t
    | mentoria_accept_invitation rid i => on_accept_invitation s sid sk rid i
    | mentoria_approve_request rid t => on_approve_request s sid sk rid t
    | mentoria_deny_request rid t => on_deny_request s sid sk rid t
    | mentoria_user_ready_for_webrtc rid => on_user_ready_for_webrtc s sid sk rid
    | mentoria_leave_room rid => on_leave_room s sid sk rid
    | webrtc_offer t rid sdp => Some (s, relay s sk "webrtc_offer" "sdp" t rid sdp)
    | webrtc_answer t rid sdp => Some (s, relay s sk "webrtc_answer" "sdp" t rid sdp)
    | webrtc_ice_candidate t rid c =>
        Some (s, relay s sk "webrtc_ice_candidate" "candidate" t rid c)
    | chat_message rid txt now => pair s <$> on_chat_message s sk rid txt now
    | end_call_1x1 t => Some (s, on_end_call_1x1 s sk t)
    | disconnect => on_disconnect s sid sk
    | no_payload eventName => on_no_payload s sid sk eventName
    end.
Proof. intros H. unfold handle. by rewrite H. Qed.

(** Reads of a key the dictionary does not hold in any way. *)
Lemma has_record_false {A} (m : gmap string A) k :
  has_record m k = false ↔ m !! k = None ∧ inherited k = false.
Proof.
  unfold has_record. destruct (m !! k); split; try done.
  - by intros [? _].
  - by intros [_ ?].
Qed.

Lemma has_record_own {A} (m : gmap string A) k a :
  m !! k = Some a → has_record m k = true.
Proof. unfold has_record. by intros ->. Qed.

Lemma has_record_plain {A} (m : gmap string A) k :
  inherited k = false → has_record m k = bool_decide (is_Some (m !! k)).
Proof.
  unfold has_record. intros ->. destruct (m !! k); [|done].
  symmetry. apply bool_decide_eq_true. eauto.
Qed.

Lemma inherited_only_own {A} (m : gmap string A) k a :
  m !! k = Some a → inherited_only m k = false.
Proof. unfold inherited_only. by intros ->. Qed.






(** ** Approval and denial *)

(** The two outcomes of an admission. *)
Lemma addUser_cases s sid roomId dn js :
  addUserToMentoriaRoom s sid roomId dn js = (s, [])
  ∨ ∃ r sk uid,
      mentoriaRooms s !! roomId = Some r ∧ sockets s !! sid = Some sk
      ∧ userId sk = Some uid ∧ truthy uid = true ∧ is_joined r uid = false
      ∧ (addUserToMentoriaRoom s sid roomId dn js).1 =
          State (onlineUsers s)
                (<[roomId := set_participants r
                               (<[uid := Participant sid dn "joined"]> (participants r))]>
                   (mentoriaRooms s))
                (<[sid := Socket (userId sk) (isMentor sk) (Some roomId)
                                 ({[roomId]} ∪ joinedRooms sk)]> (sockets s)).
Proof.
  unfold addUserToMentoriaRoom.
  destruct (mentoriaRooms s !! roomId) as [r|]; [|by left].
  destruct (sockets s !! sid) as [sk|]; [|by left].
  destruct (userId sk) as [uid|] eqn:Hu; [|by left].
  destruct (truthy uid) eqn:Ht; [|by left]. simpl.
  destruct (is_joined r uid) eqn:Hj; [by left|].
  right. exists r, sk, uid. by rewrite Hu.
Qed.

(** An admission leaves the pending requests, the invitations and the
    mentor of every room as they were. *)
Lemma addUser_room s sid roomId dn js rid r' :
  mentoriaRooms (addUserToMentoriaRoom s sid roomId dn js).1 !! rid = Some r' →
  ∃ r, mentoriaRooms s !! rid = Some r
       ∧ pendingRequests r' = pendingRequests r
       ∧ invitedUsers r' = invitedUsers r
       ∧ mentorId r' = mentorId r.
Proof.
  destruct (addUser_cases s sid roomId dn js) as [->|(r & sk & uid & Hr & _ & _ & _ & _ & ->)];
    simpl; [by eauto|].
  destruct (decide (roomId = rid)) as [->|Hne].
  - rewrite lookup_insert_eq. intros [= <-]. by exists r.
  - rewrite lookup_insert_ne by done. by eauto.
Qed.

(** An admission keeps every socket, with its identity and its role. *)
Lemma addUser_socket s sid roomId dn js x sk :
  sockets s !! x = Some sk →
  ∃ sk', sockets (addUserToMentoriaRoom s sid roomId dn js).1 !! x = Some sk'
         ∧ userId sk' = userId sk ∧ isMentor sk' = isMentor sk.
Proof.
  intros Hx.
  destruct (addUser_cases s sid roomId dn js) as [->|(r & sk0 & uid & _ & Hs & _ & _ & _ & ->)];
    simpl; [by eauto|].
  destruct (decide (sid = x)) as [->|Hne].
  - rewrite lookup_insert_eq. eexists; split; [done|]. simpl. by simplify_eq.
  - rewrite lookup_insert_ne by done. by eauto.
Qed.

(** With no pending record for the target, own or inherited, an approval by
    a mentor is answered with the not-found error and nothing changes. *)
Lemma approve_no_record s sid sk roomId target :
  sockets s !! sid = Some sk →
  isMentor sk = true →
  truthy roomId = true →
  truthy target = true →
  (∀ r, mentoriaRooms s !! roomId = Some r → has_record (pendingRequests r) target = false) →
  handle s sid (mentoria_approve_request roomId target)
  = Some (s, [error_message sid msg_request_not_found]).
Proof.
  intros Hsk Hm Hrid Ht Hnone.
  rewrite (handle_connected _ _ _ _ Hsk). unfold on_approve_request.
  rewrite Hm, Hrid, Ht. simpl.
  destruct (mentoriaRooms s !! roomId) as [r|]; [|done].
  destruct (negb (same_id (mentorId r) (userId sk))); [done|].
  destruct (proj1 (has_record_false _ _) (Hnone r eq_refl)) as [-> ->]. done.
Qed.

(** C10: an approval that passes every check while the requester's recorded
    socket is gone deletes the pending record and does nothing else: the
    membership set is as before and no message is sent to anyone. *)
Theorem approve_disconnected_requester s sid sk roomId target r q :
  sockets s !! sid = Some sk →
  isMentor sk = true →
  truthy roomId = true →
  truthy target = true →
  mentoriaRooms s !! roomId = Some r →
  same_id (mentorId r) (userId sk) = true →
  pendingRequests r !! target = Some q →
  sockets s !! q_socketId q = None →
  handle s sid (mentoria_approve_request roomId target)
  = Some (set_rooms s
            (<[roomId := set_pendingRequests r (delete target (pendingRequests r))]>
               (mentoriaRooms s)),
          []).
Proof.
  intros Hsk Hm Hrid Ht Hr Hsame Hq Hgone.
  rewrite (handle_connected _ _ _ _ Hsk). unfold on_approve_request.
  by rewrite Hm, Hrid, Ht, Hr, Hsame, Hq, Hgone.
Qed.

(** A denial or an approval by the room's mentor consumes the record: the
    approval that follows is answered with the not-found error and changes
    nothing. *)
Lemma approve_after_decision s sid sk roomId target r ev s1 out1 :
  sockets s !! sid = Some sk →
  isMentor sk = true →
  truthy roomId = true →
  truthy target = true →
  inherited target = false →
  mentoriaRooms s !! roomId = Some r →
  same_id (mentorId r) (userId sk) = true →
  ev = mentoria_deny_request roomId target ∨ ev = mentoria_approve_request roomId target →
  handle s sid ev = Some (s1, out1) →
  handle s1 sid (mentoria_approve_request roomId target)
  = Some (s1, [error_message sid msg_request_not_found]).
Proof.
  intros Hsk Hm Hrid Ht Hord Hr Hsame Hev Hh.
  rewrite (handle_connected _ _ _ _ Hsk) in Hh.
  assert (∃ sk1, sockets s1 !! sid = Some sk1 ∧ isMentor sk1 = true) as (sk1 & Hsk1 & Hm1);
    [|assert (∀ r1, mentoriaRooms s1 !! roomId = Some r1 →
                    has_record (pendingRequests r1) target = false)
        as Hnone; [|by eapply approve_no_record]].
  - destruct Hev as [-> | ->]; simpl in Hh.
    + unfold on_deny_request in Hh. rewrite Hm, Hrid, Ht, Hr, Hsame, Hord in Hh. simpl in Hh.
      destruct (pendingRequests r !! target); simplify_eq; simpl; eauto.
    + unfold on_approve_request in Hh. rewrite Hm, Hrid, Ht, Hr, Hsame, Hord in Hh. simpl in Hh.
      destruct (pendingRequests r !! target) as [q|]; [|simplify_eq; eauto].
      destruct (sockets s !! q_socketId q); [|simplify_eq; simpl; eauto].
      injection Hh as Hh.
      match type of Hh with addUserToMentoriaRoom ?s0 ?a ?b ?c ?d = _ =>
        destruct (addUser_socket s0 a b c d sid sk Hsk) as (sk' & Hsk' & _ & Hm');
        rewrite Hh in Hsk' end.
      exists sk'. split; [done|]. by rewrite Hm'.
  - intros r1 Hr1. apply has_record_false. split; [|done].
    destruct Hev as [-> | ->]; simpl in Hh.
    + unfold on_deny_request in Hh. rewrite Hm, Hrid, Ht, Hr, Hsame, Hord in Hh. simpl in Hh.
      destruct (pendingRequests r !! target) eqn:Hq; simplify_eq; simpl in *.
      * rewrite lookup_insert_eq in Hr1. simplify_eq. simpl. apply lookup_delete_eq.
      * by simplify_eq.
    + unfold on_approve_request in Hh. rewrite Hm, Hrid, Ht, Hr, Hsame, Hord in Hh. simpl in Hh.
      destruct (pendingRequests r !! target) as [q|] eqn:Hq; [|by simplify_eq].
      destruct (sockets s !! q_socketId q).
      * injection Hh as Hh.
        match type of Hh with addUserToMentoriaRoom ?s0 ?a ?b ?c ?d = _ =>
          destruct (addUser_room s0 a b c d roomId r1) as (r0 & Hr0 & Hp & _);
          [by rewrite Hh|] end.
        simpl in Hr0. rewrite lookup_insert_eq in Hr0. simplify_eq.
        rewrite Hp. simpl. apply lookup_delete_eq.
      * simplify_eq. simpl in Hr1. rewrite lookup_insert_eq in Hr1. simplify_eq.
        simpl. apply lookup_delete_eq.
Qed.

(** A disconnect is not among the events that consume a request: the
    requester's disconnect leaves the pending record in place, and the
    approval that follows deletes it and admits nobody. *)
Lemma approve_after_disconnect_no_error :
  pending_in (after alice_pending) defaultMentoriaRoomId "alice" = true
  ∧ pending_in (after alice_gone) defaultMentoriaRoomId "alice" = true
  ∧ (λ so : state * list emit,
       (pending_in so.1 defaultMentoriaRoomId "alice",
        joined_in so.1 defaultMentoriaRoomId "alice", so.2))
    <$> then_handle alice_gone "s1" (mentoria_approve_request defaultMentoriaRoomId "alice")
    = Some (false, false, []).
Proof. vm_compute. done. Qed.

(** ** The authority of a room *)

(** The two outcomes of a removal. *)
Lemma removeUser_cases s sid roomId :
  removeUserFromMentoriaRoom s sid roomId = (s, [])
  ∨ ∃ r sk uid,
      mentoriaRooms s !! roomId = Some r ∧ sockets s !! sid = Some sk
      ∧ userId sk = Some uid
      ∧ (removeUserFromMentoriaRoom s sid roomId).1 =
          State (onlineUsers s)
                (<[roomId := set_participants r (delete uid (participants r))]>
                   (mentoriaRooms s))
                (<[sid := Socket (userId sk) (isMentor sk)
                                 (if bool_decide (currentRoomId sk = Some roomId)
                                  then None else currentRoomId sk)
                                 (joinedRooms sk ∖ {[roomId]})]> (sockets s)).
Proof.
  unfold removeUserFromMentoriaRoom.
  destruct (mentoriaRooms s !! roomId) as [r|]; [|by left].
  destruct (sockets s !! sid) as [sk|]; [|by left].
  destruct (userId sk) as [uid|] eqn:Hu; [|by left].
  destruct (negb (truthy uid)); [by left|].
  destruct (has_record (participants r) uid); [|by left].
  right. exists r, sk, uid. by rewrite Hu.
Qed.

Lemma rooms_le_refl rs : rooms_le rs rs.
Proof. intros rid r Hr. exists r. split; [done|]. by intros m. Qed.

Lemma rooms_le_trans rs1 rs2 rs3 : rooms_le rs1 rs2 → rooms_le rs2 rs3 → rooms_le rs1 rs3.
Proof.
  intros H12 H23 rid r Hr.
  destruct (H12 rid r Hr) as (r2 & Hr2 & Hk2).
  destruct (H23 rid r2 Hr2) as (r3 & Hr3 & Hk3).
  exists r3. split; [done|]. intros m Hm Ht. apply Hk3; [|done]. by apply Hk2.
Qed.

Lemma rooms_le_insert rs rid r r' :
  rs !! rid = Some r → mentor_kept r r' → rooms_le rs (<[rid := r']> rs).
Proof.
  intros Hr Hk x rx Hx. destruct (decide (rid = x)) as [->|Hne].
  - rewrite lookup_insert_eq. simplify_eq. by exists r'.
  - rewrite lookup_insert_ne by done. exists rx. split; [done|]. by intros m.
Qed.

Lemma addUser_le s sid roomId dn js :
  rooms_le (mentoriaRooms s) (mentoriaRooms (addUserToMentoriaRoom s sid roomId dn js).1).
Proof.
  destruct (addUser_cases s sid roomId dn js) as [->|(r & sk & uid & Hr & _ & _ & _ & _ & ->)];
    simpl; [apply rooms_le_refl|].
  eapply rooms_le_insert; [done|]. by intros m.
Qed.

Lemma removeUser_le s sid roomId :
  rooms_le (mentoriaRooms s) (mentoriaRooms (removeUserFromMentoriaRoom s sid roomId).1).
Proof.
  destruct (removeUser_cases s sid roomId) as [->|(r & sk & uid & Hr & _ & _ & ->)];
    simpl; [apply rooms_le_refl|].
  eapply rooms_le_insert; [done|]. by intros m.
Qed.

Local Ltac rooms_le_step :=
  first
    [ apply rooms_le_refl
    | eapply rooms_le_insert; [eassumption|]; by intros ? ].

(** Name the state a helper returned as the helper's first component. *)
Local Ltac name_helper_state :=
  match goal with
  | H : addUserToMentoriaRoom ?s0 ?a ?b ?c ?d = (?s1, ?o) |- _ =>
      replace s1 with (addUserToMentoriaRoom s0 a b c d).1 in * by (by rewrite H)
  | H : removeUserFromMentoriaRoom ?s0 ?a ?b = (?s1, ?o) |- _ =>
      replace s1 with (removeUserFromMentoriaRoom s0 a b).1 in * by (by rewrite H)
  end.

(** A chat message that is handled leaves the state as it is. *)
Local Ltac chat_unchanged :=
  match goal with
  | H : pair _ <$> _ = Some _ |- _ => apply fmap_Some in H as (? & ? & ?); simplify_eq
  end.

(** No handler removes a room or replaces a mentor. *)
Lemma handle_rooms_le s sid ev s' out :
  handle s sid ev = Some (s', out) → rooms_le (mentoriaRooms s) (mentoriaRooms s').
Proof.
  unfold handle. destruct (sockets s !! sid) as [sk|] eqn:Hsk.
  2: { destruct ev; intros; simplify_eq; apply rooms_le_refl. }
  destruct ev; intros Hh; try chat_unchanged; simplify_eq; try apply rooms_le_refl.
  - (* register_user *)
    unfold on_register_user in Hh.
    repeat case_match; simplify_eq; simpl; try apply rooms_le_refl.
    eapply rooms_le_insert; [eassumption|].
    intros m Hm Ht. simpl.
    match goal with H : negb (truthy_opt (mentorId _)) = true |- _ =>
      rewrite Hm in H; simpl in H; rewrite Ht in H; discriminate end.
  - unfold on_check_access_status in Hh.
    repeat case_match; simplify_eq; apply rooms_le_refl.
  - unfold on_request_join in Hh.
    repeat case_match; simplify_eq; simpl; rooms_le_step.
  - unfold on_invite_user in Hh.
    repeat case_match; simplify_eq; simpl; rooms_le_step.
  - (* accept: the invitation is deleted, then the user is admitted *)
    unfold on_accept_invitation in Hh.
    repeat case_match; simplify_eq; simpl; try apply rooms_le_refl;
      name_helper_state;
      (eapply rooms_le_trans; [|apply addUser_le]); simpl; rooms_le_step.
  - (* approve: the request is deleted, then the user is admitted *)
    unfold on_approve_request in Hh.
    repeat case_match; simplify_eq; simpl; try rooms_le_step.
    name_helper_state.
    eapply rooms_le_trans; [|apply addUser_le]. simpl. rooms_le_step.
  - unfold on_deny_request in Hh.
    repeat case_match; simplify_eq; simpl; rooms_le_step.
  - unfold on_user_ready_for_webrtc in Hh.
    repeat case_match; simplify_eq; apply rooms_le_refl.
  - unfold on_leave_room in Hh.
    repeat case_match; simplify_eq; try apply rooms_le_refl.
    name_helper_state. apply removeUser_le.
  - (* disconnect *)
    unfold on_disconnect in Hh.
    repeat case_match; simplify_eq; simpl; try apply rooms_le_refl.
    name_helper_state. apply removeUser_le.
  - unfold on_no_payload in Hh.
    repeat case_match; simplify_eq; apply rooms_le_refl.
Qed.

(** C3 (amended): no operation clears or replaces the authority of a room
    once it is set; in particular it is still in place after the authority
    itself leaves or disconnects. *)
Theorem authority_kept_by_every_operation s sid ev s' out rid r m :
  handle s sid ev = Some (s', out) →
  mentoriaRooms s !! rid = Some r →
  mentorId r = Some m →
  truthy m = true →
  ∃ r', mentoriaRooms s' !! rid = Some r' ∧ mentorId r' = Some m.
Proof.
  intros Hh Hr Hm Ht.
  destruct (handle_rooms_le _ _ _ _ _ Hh rid r Hr) as (r' & Hr' & Hk).
  exists r'. split; [done|]. by apply Hk.
Qed.

(** C3, as stated, fails: the mentor of the primary room leaves it and is
    still its authority; the mentor disconnects and is still its authority
    although no longer registered. *)
Lemma authority_survives_leave_and_disconnect :
  (λ s, (authority_of s defaultMentoriaRoomId, joined_in s defaultMentoriaRoomId "mentor"))
    <$> run init mentor_in = Some (Some "mentor", true)
  ∧ (λ s, (authority_of s defaultMentoriaRoomId, joined_in s defaultMentoriaRoomId "mentor"))
    <$> run init mentor_in_and_out = Some (Some "mentor", false)
  ∧ (λ s, (authority_of s defaultMentoriaRoomId, registered s "mentor"))
    <$> run init mentor_gone = Some (Some "mentor", false).
Proof. vm_compute. done. Qed.

Lemma run_rooms_le evs : ∀ s s', run s evs = Some s' → rooms_le (mentoriaRooms s) (mentoriaRooms s').
Proof.
  induction evs as [|[sid ev] evs IH]; intros s s' Hrun; simpl in Hrun.
  - simplify_eq. apply rooms_le_refl.
  - destruct (handle s sid ev) as [[s1 out]|] eqn:Hh; [|done].
    eapply rooms_le_trans; [by eapply handle_rooms_le|by apply IH].
Qed.

(** The primary room is in the registry of every state the server reaches. *)
Lemma primary_room_persists evs s :
  run init evs = Some s → is_Some (mentoriaRooms s !! defaultMentoriaRoomId).
Proof.
  intros Hrun.
  destruct (run_rooms_le _ _ _ Hrun defaultMentoriaRoomId
              (Room defaultMentoriaRoomId "Sala de Mentoria Principal" None ∅ ∅ ∅))
    as (r' & Hr' & _); [|by eauto].
  unfold init; simpl. apply lookup_singleton_eq.
Qed.

(** ** One status per user and room *)

Lemma is_joined_add r uid p u :
  is_joined (set_participants r (<[uid := p]> (participants r))) u
  = if decide (uid = u) then String.eqb (p_status p) "joined" else is_joined r u.
Proof.
  unfold is_joined; simpl. case_decide as H.
  - subst. by rewrite lookup_insert_eq.
  - by rewrite lookup_insert_ne.
Qed.

Lemma is_joined_del r uid u :
  is_joined (set_participants r (delete uid (participants r))) u
  = if decide (uid = u) then false else is_joined r u.
Proof.
  unfold is_joined; simpl. case_decide as H.
  - subst. by rewrite lookup_delete_eq.
  - by rewrite lookup_delete_ne.
Qed.

Lemma pending_add r uid q u :
  pending (set_pendingRequests r (<[uid := q]> (pendingRequests r))) u
  = if decide (uid = u) then true else pending r u.
Proof.
  unfold pending; simpl. case_decide as H.
  - subst. rewrite lookup_insert_eq. apply bool_decide_eq_true. eauto.
  - by rewrite lookup_insert_ne.
Qed.

Lemma pending_del r uid u :
  pending (set_pendingRequests r (delete uid (pendingRequests r))) u
  = if decide (uid = u) then false else pending r u.
Proof.
  unfold pending; simpl. case_decide as H.
  - subst. rewrite lookup_delete_eq. apply bool_decide_eq_false. by intros [? ?].
  - by rewrite lookup_delete_ne.
Qed.

Lemma invited_add r uid i u :
  invited (set_invitedUsers r (<[uid := i]> (invitedUsers r))) u
  = if decide (uid = u) then true else invited r u.
Proof.
  unfold invited; simpl. case_decide as H.
  - subst. rewrite lookup_insert_eq. apply bool_decide_eq_true. eauto.
  - by rewrite lookup_insert_ne.
Qed.

Lemma invited_del r uid u :
  invited (set_invitedUsers r (delete uid (invitedUsers r))) u
  = if decide (uid = u) then false else invited r u.
Proof.
  unfold invited; simpl. case_decide as H.
  - subst. rewrite lookup_delete_eq. apply bool_decide_eq_false. by intros [? ?].
  - by rewrite lookup_delete_ne.
Qed.

(** The status tests that an update of another set leaves alone. *)
Local Ltac frame_statuses :=
  repeat match goal with
  | |- context [pending (set_participants ?r ?ps) ?u] =>
      change (pending (set_participants r ps) u) with (pending r u)
  | |- context [invited (set_participants ?r ?ps) ?u] =>
      change (invited (set_participants r ps) u) with (invited r u)
  | |- context [is_joined (set_pendingRequests ?r ?qs) ?u] =>
      change (is_joined (set_pendingRequests r qs) u) with (is_joined r u)
  | |- context [invited (set_pendingRequests ?r ?qs) ?u] =>
      change (invited (set_pendingRequests r qs) u) with (invited r u)
  | |- context [is_joined (set_invitedUsers ?r ?iv) ?u] =>
      change (is_joined (set_invitedUsers r iv) u) with (is_joined r u)
  | |- context [pending (set_invitedUsers ?r ?iv) ?u] =>
      change (pending (set_invitedUsers r iv) u) with (pending r u)
  end.

(** Rewrite the three status tests of an updated room to tests on the room
    before the update, split on the user, and count. *)
Local Ltac count_statuses r u Hex :=
  unfold memberships; frame_statuses;
  rewrite ?is_joined_add, ?is_joined_del, ?pending_add, ?pending_del,
    ?invited_add, ?invited_del;
  pose proof (Hex u) as Hu_; unfold memberships in Hu_;
  repeat case_decide; subst;
  repeat match goal with H : _ = false |- _ => rewrite ?H in * end;
  destruct (is_joined r u), (pending r u), (invited r u); simpl in *; try lia; try done.

Lemma exclusive_del_participant r uid :
  exclusive r → exclusive (set_participants r (delete uid (participants r))).
Proof. intros Hex u. count_statuses r u Hex. Qed.

Lemma exclusive_del_pending r uid :
  exclusive r → exclusive (set_pendingRequests r (delete uid (pendingRequests r))).
Proof. intros Hex u. count_statuses r u Hex. Qed.

Lemma exclusive_del_invited r uid :
  exclusive r → exclusive (set_invitedUsers r (delete uid (invitedUsers r))).
Proof. intros Hex u. count_statuses r u Hex. Qed.

Lemma exclusive_add_participant r uid p :
  exclusive r → pending r uid = false → invited r uid = false →
  exclusive (set_participants r (<[uid := p]> (participants r))).
Proof.
  intros Hex Hp Hi u. count_statuses r u Hex; destruct (String.eqb _ _); simpl; lia.
Qed.

Lemma exclusive_add_pending r uid q :
  exclusive r → is_joined r uid = false → invited r uid = false →
  exclusive (set_pendingRequests r (<[uid := q]> (pendingRequests r))).
Proof. intros Hex Hj Hi u. count_statuses r u Hex. Qed.

Lemma exclusive_add_invited r uid i :
  exclusive r → is_joined r uid = false → pending r uid = false →
  exclusive (set_invitedUsers r (<[uid := i]> (invitedUsers r))).
Proof. intros Hex Hj Hp u. count_statuses r u Hex. Qed.

Lemma exclusive_set_mentorId r m : exclusive r → exclusive (set_mentorId r m).
Proof. intros Hex u. apply (Hex u). Qed.

(** Of two statuses held at once, exclusivity refutes the second. *)
Lemma exclusive_pending_not_invited r u :
  exclusive r → pending r u = true → invited r u = false.
Proof.
  intros Hex Hp. pose proof (Hex u) as H. unfold memberships in H. rewrite Hp in H.
  destruct (is_joined r u), (invited r u); simpl in *; done || lia.
Qed.

Lemma exclusive_invited_not_pending r u :
  exclusive r → invited r u = true → pending r u = false.
Proof.
  intros Hex Hp. pose proof (Hex u) as H. unfold memberships in H. rewrite Hp in H.
  destruct (is_joined r u), (pending r u); simpl in *; done || lia.
Qed.

Lemma rooms_exclusive_insert rs rid r' :
  rooms_exclusive rs → exclusive r' → rooms_exclusive (<[rid := r']> rs).
Proof. intros Hrs Hr. by apply map_Forall_insert_2. Qed.

Lemma removeUser_exclusive s sid roomId :
  rooms_exclusive (mentoriaRooms s) →
  rooms_exclusive (mentoriaRooms (removeUserFromMentoriaRoom s sid roomId).1).
Proof.
  intros Hex.
  destruct (removeUser_cases s sid roomId) as [->|(r & sk & uid & Hr & _ & _ & ->)];
    simpl; [done|].
  apply rooms_exclusive_insert; [done|].
  apply exclusive_del_participant. by apply (Hex roomId).
Qed.

(** An admission keeps the statuses exclusive when the identity bound to
    the admitted socket is neither pending nor invited in the room. *)
Lemma addUser_exclusive s sid roomId dn js :
  rooms_exclusive (mentoriaRooms s) →
  (∀ r sk uid, mentoriaRooms s !! roomId = Some r → sockets s !! sid = Some sk →
               userId sk = Some uid → pending r uid = false ∧ invited r uid = false) →
  rooms_exclusive (mentoriaRooms (addUserToMentoriaRoom s sid roomId dn js).1).
Proof.
  intros Hex Hfree.
  destruct (addUser_cases s sid roomId dn js) as [->|(r & sk & uid & Hr & Hs & Hu & _ & _ & ->)];
    simpl; [done|].
  destruct (Hfree r sk uid Hr Hs Hu) as [Hp Hi].
  apply rooms_exclusive_insert; [done|].
  apply exclusive_add_participant; [by apply (Hex roomId)|done..].
Qed.

(** Exclusivity is kept by every event issued from the source state the
    access controller expects. *)
Lemma handle_exclusive s sid ev s' out :
  rooms_exclusive (mentoriaRooms s) →
  respects s sid ev = true →
  handle s sid ev = Some (s', out) →
  rooms_exclusive (mentoriaRooms s').
Proof.
  intros Hex Hg. unfold handle. destruct (sockets s !! sid) as [sk|] eqn:Hsk.
  2: { destruct ev; intros; by simplify_eq. }
  destruct ev; intros Hh; try chat_unchanged; simplify_eq; try done.
  - (* register_user *)
    unfold on_register_user in Hh.
    repeat case_match; simplify_eq; simpl; try done.
    apply rooms_exclusive_insert; [done|].
    apply exclusive_set_mentorId. by apply (Hex defaultMentoriaRoomId).
  - unfold on_check_access_status in Hh. repeat case_match; by simplify_eq.
  - (* request_join *)
    unfold on_request_join in Hh. unfold respects in Hg. rewrite Hsk in Hg. simpl in Hg.
    destruct (userId sk) as [uid|] eqn:Hu; [|by simplify_eq].
    destruct (negb (truthy uid) || negb (truthy roomId)
              || negb (has_record (onlineUsers s) uid)); [by simplify_eq|].
    destruct (mentoriaRooms s !! roomId) as [r|] eqn:Hr; [|by case_match; simplify_eq].
    destruct (has_record (participants r) uid) eqn:Hp; [by simplify_eq|].
    apply has_record_false in Hp as [Hp _].
    simplify_eq. simpl. apply rooms_exclusive_insert; [done|].
    apply exclusive_add_pending; [by apply (Hex roomId)| |by apply negb_true_iff].
    unfold is_joined. by rewrite Hp.
  - (* invite_user *)
    unfold on_invite_user in Hh. unfold respects in Hg.
    destruct (negb (isMentor sk) || negb (truthy roomId) || negb (truthy targetUserId)
              || negb (has_record (onlineUsers s) targetUserId));
      [by simplify_eq|].
    destruct (mentoriaRooms s !! roomId) as [r|] eqn:Hr; [|by simplify_eq].
    destruct (userId sk) as [uid|]; [|by simplify_eq].
    destruct (negb (same_id (mentorId r) (Some uid))); [by simplify_eq|].
    apply andb_true_iff in Hg as [Hj Hp].
    assert (rooms_exclusive
              (<[roomId := set_invitedUsers r (<[targetUserId := uid]> (invitedUsers r))]>
                 (mentoriaRooms s))) as Hnew.
    { apply rooms_exclusive_insert; [done|].
      apply exclusive_add_invited; [by apply (Hex roomId)|by apply negb_true_iff..]. }
    repeat case_match; by simplify_eq.
  - (* accept_invitation *)
    unfold on_accept_invitation in Hh.
    destruct (userId sk) as [uid|] eqn:Hu; [|by simplify_eq].
    destruct (negb (truthy uid) || negb (truthy roomId)); [by simplify_eq|].
    destruct (mentoriaRooms s !! roomId) as [r|] eqn:Hr; [|by case_match; simplify_eq].
    destruct (invitedUsers r !! uid) as [inviter|] eqn:Hi; [|by simplify_eq].
    destruct (negb (truthy inviter) || negb (String.eqb inviter inviterId)); [by simplify_eq|].
    assert (∃ dn, addUserToMentoriaRoom
                    (set_rooms s
                       (<[roomId := set_invitedUsers r (delete uid (invitedUsers r))]>
                          (mentoriaRooms s)))
                    sid roomId dn "invited_joined" = (s', out)) as [dn Hadd].
    { repeat case_match; simplify_eq; eauto. }
    clear Hh. name_helper_state.
    pose proof (Hex roomId r Hr) as Hexr. simpl in Hexr.
    apply addUser_exclusive; simpl.
    + apply rooms_exclusive_insert; [done|]. by apply exclusive_del_invited.
    + intros r0 sk0 uid0. rewrite lookup_insert_eq, Hsk. intros ? ? ?. simplify_eq.
      split.
      * frame_statuses. apply exclusive_invited_not_pending; [done|].
        apply bool_decide_eq_true. eauto.
      * rewrite invited_del. by case_decide.
  - (* approve_request *)
    unfold on_approve_request in Hh. unfold respects in Hg.
    destruct (negb (isMentor sk) || negb (truthy roomId) || negb (truthy targetUserId));
      [by simplify_eq|].
    destruct (mentoriaRooms s !! roomId) as [r|] eqn:Hr; [|by simplify_eq].
    destruct (negb (same_id (mentorId r) (userId sk))); [by simplify_eq|].
    simpl in Hg.
    destruct (pendingRequests r !! targetUserId) as [q|] eqn:Hq;
      [|by case_match; simplify_eq].
    pose proof (Hex roomId r Hr) as Hexr. simpl in Hexr.
    destruct (sockets s !! q_socketId q) as [skt|] eqn:Hskt.
    + simplify_eq. name_helper_state.
      apply addUser_exclusive; simpl.
      * apply rooms_exclusive_insert; [done|]. by apply exclusive_del_pending.
      * intros r0 sk0 uid0. rewrite lookup_insert_eq, Hskt. intros ? ? Hu0. simplify_eq.
        apply bool_decide_eq_true in Hg. rewrite Hg in Hu0. simplify_eq.
        split.
        -- rewrite pending_del. by case_decide.
        -- frame_statuses. apply exclusive_pending_not_invited; [done|].
           apply bool_decide_eq_true. eauto.
    + simplify_eq. simpl. apply rooms_exclusive_insert; [done|]. by apply exclusive_del_pending.
  - (* deny_request *)
    unfold on_deny_request in Hh.
    repeat case_match; simplify_eq; simpl; try done.
    apply rooms_exclusive_insert; [done|]. apply exclusive_del_pending.
    by eapply (Hex roomId).
  - unfold on_user_ready_for_webrtc in Hh. repeat case_match; by simplify_eq.
  - unfold on_leave_room in Hh.
    repeat case_match; simplify_eq; try done.
    name_helper_state. by apply removeUser_exclusive.
  - (* disconnect *)
    unfold on_disconnect in Hh.
    repeat case_match; simplify_eq; simpl; try done.
    name_helper_state. by apply removeUser_exclusive.
  - unfold on_no_payload in Hh. repeat case_match; by simplify_eq.
Qed.

(** C1 (amended): along every run in which join requests come from users
    holding no invitation to the room, invitations go to users who are
    neither members nor pending, and approvals concern requests whose
    recorded socket, if still connected, is still bound to the requester,
    every user is, in every room, in at most one of the membership set, the
    pending-request set and the invitation set. *)
Theorem one_status_per_room evs s rid r u :
  guarded init evs = true →
  run init evs = Some s →
  mentoriaRooms s !! rid = Some r →
  (memberships r u ≤ 1)%nat.
Proof.
  intros Hg Hrun Hr.
  assert (∀ s0, rooms_exclusive (mentoriaRooms s0) → guarded s0 evs = true →
                run s0 evs = Some s → rooms_exclusive (mentoriaRooms s)) as Hind.
  { clear. induction evs as [|[sid ev] evs IH]; intros s0 Hex Hg Hrun; simpl in *.
    - by simplify_eq.
    - apply andb_true_iff in Hg as [Hg1 Hg2].
      destruct (handle s0 sid ev) as [[s1 out]|] eqn:Hh; [|done].
      apply (IH s1); [by eapply handle_exclusive|done..]. }
  refine (Hind init _ Hg Hrun rid r Hr u).
  unfold init; simpl. apply map_Forall_singleton. intros v.
  unfold memberships, is_joined, pending, invited; simpl.
  rewrite !lookup_empty. simpl. lia.
Qed.

(** C1, as stated, fails: invited by the mentor, alice asks to join and is
    then in the invitation set and in the pending-request set at once. *)
Lemma invited_and_pending_at_once :
  (λ s, from_option (λ r, (invited r "alice", pending r "alice", memberships r "alice"))
                    (false, false, 0%nat) (mentoriaRooms s !! defaultMentoriaRoomId))
    <$> run init (alice_invited ++ [("s2", mentoria_request_join defaultMentoriaRoomId)])
  = Some (true, true, 2%nat).
Proof. vm_compute. done. Qed.

(** Each of the other two conditions on the runs is needed as well.  The
    mentor invites alice after admitting her: she is joined and invited.
    Alice's socket asks to join and then registers again as bob, whom the
    mentor invites; the approval of alice's request admits bob, who is then
    joined and invited. *)
Lemma overlap_without_the_other_conditions :
  (guarded init alice_joined_then_invited,
   joined_in (after alice_joined_then_invited) defaultMentoriaRoomId "alice",
   invited_in (after alice_joined_then_invited) defaultMentoriaRoomId "alice")
  = (false, true, true)
  ∧ (guarded init socket_rebound,
     joined_in (after socket_rebound) defaultMentoriaRoomId "bob",
     invited_in (after socket_rebound) defaultMentoriaRoomId "bob")
    = (false, true, true).
Proof. vm_compute. done. Qed.

(** ** The theorems at work on the scenarios *)

Lemma admit_idempotent_witness :
  addUserToMentoriaRoom (after mentor_in) "s1" defaultMentoriaRoomId "Mentor" "approved"
  = (after mentor_in, []).
Proof.
  eapply (admit_idempotent (after mentor_in) "s1" defaultMentoriaRoomId "Mentor" "approved"
            (Socket (Some "mentor") true (Some defaultMentoriaRoomId) {[defaultMentoriaRoomId]})
            "mentor" (primary_room (after mentor_in)));
    vm_compute; reflexivity.
Defined.


Lemma approve_disconnected_requester_witness :
  handle (after alice_gone) "s1" (mentoria_approve_request defaultMentoriaRoomId "alice")
  = Some (set_rooms (after alice_gone)
            (<[defaultMentoriaRoomId :=
                 set_pendingRequests (primary_room (after alice_gone))
                   (delete "alice" (pendingRequests (primary_room (after alice_gone))))]>
               (mentoriaRooms (after alice_gone))),
          []).
Proof.
  apply (approve_disconnected_requester (after alice_gone) "s1"
           (Socket (Some "mentor") true None ∅) defaultMentoriaRoomId "alice"
           (primary_room (after alice_gone)) (Request "s2" "Alice"));
    vm_compute; reflexivity.
Defined.

Lemma authority_kept_by_every_operation_witness :
  ∃ r', mentoriaRooms (after mentor_gone) !! defaultMentoriaRoomId = Some r'
        ∧ mentorId r' = Some "mentor".
Proof.
  apply (authority_kept_by_every_operation
           (after [("s1", connection); ("s1", register_user "mentor" "Mentor" true)])
           "s1" disconnect (after mentor_gone)
           (emits_of [("s1", connection); ("s1", register_user "mentor" "Mentor" true)]
                     "s1" disconnect)
           defaultMentoriaRoomId
           (primary_room (after [("s1", connection); ("s1", register_user "mentor" "Mentor" true)]))
           "mentor");
    vm_compute; reflexivity.
Defined.

Lemma one_status_per_room_witness :
  (memberships (primary_room (after alice_approved)) "alice" ≤ 1)%nat.
Proof.
  apply (one_status_per_room alice_approved (after alice_approved) defaultMentoriaRoomId);
    vm_compute; reflexivity.
Defined.

End MentoriaFacts.

(** * Properties of the open-join server *)

Section OpenJoinFacts.
Import OpenJoin.

Implicit Types (s : state) (r : room) (sk : socket) (sid uid rid : string).

(** What a leave does once its guard is passed: the user is taken out of
    the room, both current-room fields are reset, and the room goes when
    nobody is left. *)
Lemma has_string_own (m : gmap string string) k :
  truthy_opt (m !! k) = true → has_string m k = true.
Proof. unfold has_string. by destruct (m !! k). Qed.

Lemma has_string_false (m : gmap string string) k :
  has_string m k = false ↔ truthy_opt (m !! k) = false ∧ (m !! k = None → inherited k = false).
Proof.
  unfold has_string. destruct (m !! k); simpl.
  - split; [by intros ->|by intros [? _]].
  - split; [by intros ->|intros [_ H]; by apply H].
Qed.

Lemma leaveRoom_member s sid sk uid u rid r :
  sockets s !! sid = Some sk →
  userId sk = Some uid →
  onlineUsers s !! uid = Some u →
  rooms s !! rid = Some r →
  truthy_opt (participants r !! uid) = true →
  leaveRoom s sid rid =
    (State (<[uid := set_currentRoomId u None]> (onlineUsers s))
           (if bool_decide (size (delete uid (participants r)) = 0)
            then delete rid (rooms s)
            else <[rid := set_participants r (delete uid (participants r))]> (rooms s))
           (<[sid := Socket (userId sk) None (joinedRooms sk ∖ {[rid]})]> (sockets s)),
     [Emit (to_socket sid) "left_room_successfully" (JObj [("roomId", JStr rid)]);
      Emit (to_room rid) "participant_left"
           (JObj [("userId", JStr uid); ("displayName", JStr (u_displayName u))])]).
Proof.
  intros Hsk Hu Hon Hr Hp. unfold leaveRoom, displayName_of.
  by rewrite Hsk, Hu, Hr, (has_record_own _ _ _ Hon), (has_string_own _ _ Hp), Hon.
Qed.

(** The leave of the last member removes the room from the registry. *)
Lemma leaveRoom_last_member s sid sk uid u rid r :
  sockets s !! sid = Some sk →
  userId sk = Some uid →
  onlineUsers s !! uid = Some u →
  rooms s !! rid = Some r →
  truthy_opt (participants r !! uid) = true →
  (∀ v, v ≠ uid → participants r !! v = None) →
  rooms (leaveRoom s sid rid).1 !! rid = None.
Proof.
  intros Hsk Hu Hon Hr Hp Hlast.
  rewrite (leaveRoom_member s sid sk uid u rid r) by done. simpl.
  assert (delete uid (participants r) = ∅) as ->.
  { apply map_eq. intros v. rewrite lookup_empty.
    destruct (decide (uid = v)) as [->|Hne].
    - apply lookup_delete_eq.
    - rewrite lookup_delete_ne by done. by apply Hlast. }
  rewrite map_size_empty. simpl. apply lookup_delete_eq.
Qed.

(** With another member left, the room stays. *)
Lemma leaveRoom_others_remain s sid sk uid u rid r v :
  sockets s !! sid = Some sk →
  userId sk = Some uid →
  onlineUsers s !! uid = Some u →
  rooms s !! rid = Some r →
  truthy_opt (participants r !! uid) = true →
  v ≠ uid → is_Some (participants r !! v) →
  rooms (leaveRoom s sid rid).1 !! rid
  = Some (set_participants r (delete uid (participants r))).
Proof.
  intros Hsk Hu Hon Hr Hp Hne [x Hv].
  rewrite (leaveRoom_member s sid sk uid u rid r) by done. simpl.
  rewrite bool_decide_eq_false_2.
  - apply lookup_insert_eq.
  - intros Hz. apply map_size_empty_iff in Hz.
    assert (delete uid (participants r) !! v = Some x) as Hx
      by by rewrite lookup_delete_ne.
    rewrite Hz, lookup_empty in Hx. done.
Qed.

(** ** Joining from another room *)

(** The join proper, for a socket that is in no room: the user is added to
    the room, which must have space. *)
Lemma joinRoom_fresh s sid sk uid u rid r :
  sockets s !! sid = Some sk →
  userId sk = Some uid →
  onlineUsers s !! uid = Some u →
  rooms s !! rid = Some r →
  currentRoomId sk = None →
  (size (participants r) < capacity)%nat →
  joinRoom s sid rid =
    Some (joined_state s sid sk uid u rid r,
          join_notices (joined_state s sid sk uid u rid r) sid uid rid r).
Proof.
  intros Hsk Hu Hon Hr Hcur Hsz. unfold joinRoom.
  rewrite Hsk, Hu, Hr, (has_record_own _ _ _ Hon), Hcur.
  rewrite bool_decide_eq_false_2 by lia.
  simpl. by rewrite Hr, Hon, Hsk.
Qed.

(** C9 (amended): a registered user joins room [r2id] on a socket whose
    current room is another room [r1id], of which the user is a participant.
    If [r2id] is full the join is refused with the room-full error and
    nothing changes, so the user stays in [r1id].  Otherwise the join is the
    leave of [r1id], with all its effects (the room is deleted if it
    empties), followed by the join proper; afterwards the user is a
    participant of [r2id] and not of [r1id], and every other room of the
    registry is as it was. *)
Theorem join_moves_between_rooms s sid sk uid u r1id r1 r2id r2 :
  sockets s !! sid = Some sk →
  userId sk = Some uid →
  onlineUsers s !! uid = Some u →
  currentRoomId sk = Some r1id →
  truthy r1id = true →
  rooms s !! r1id = Some r1 →
  truthy_opt (participants r1 !! uid) = true →
  r2id ≠ r1id →
  rooms s !! r2id = Some r2 →
  if bool_decide (capacity ≤ size (participants r2))%nat
  then joinRoom s sid r2id = Some (s, [error_message sid msg_room_full])
       ∧ member_of s r1id uid = true
  else ∃ s' out2,
         joinRoom s sid r2id = Some (s', (leaveRoom s sid r1id).2 ++ out2)
         ∧ joinRoom (leaveRoom s sid r1id).1 sid r2id = Some (s', out2)
         ∧ rooms s' !! r1id
           = (if bool_decide (size (delete uid (participants r1)) = 0) then None
              else Some (set_participants r1 (delete uid (participants r1))))
         ∧ member_of s' r1id uid = false
         ∧ member_of s' r2id uid = true
         ∧ ∀ rid, rid ≠ r1id → rid ≠ r2id → rooms s' !! rid = rooms s !! rid.
Proof.
  intros Hsk Hu Hon Hcur Ht1 Hr1 Hin Hne Hr2.
  destruct (bool_decide (capacity ≤ size (participants r2))%nat) eqn:Hcap.
  { split.
    - unfold joinRoom. by rewrite Hsk, Hu, Hr2, (has_record_own _ _ _ Hon), Hcap.
    - unfold member_of. rewrite Hr1. simpl. apply bool_decide_eq_true.
      destruct (participants r1 !! uid); [eauto|done]. }
  apply bool_decide_eq_false in Hcap.
  pose proof (leaveRoom_member s sid sk uid u r1id r1 Hsk Hu Hon Hr1 Hin) as Hleave.
  set (rs1 := if bool_decide (size (delete uid (participants r1)) = 0)
              then delete r1id (rooms s)
              else <[r1id := set_participants r1 (delete uid (participants r1))]> (rooms s))
    in Hleave.
  assert (rs1 !! r2id = Some r2) as Hr2'.
  { unfold rs1. case_bool_decide.
    - by rewrite lookup_delete_ne.
    - by rewrite lookup_insert_ne. }
  assert (rs1 !! r1id
          = if bool_decide (size (delete uid (participants r1)) = 0) then None
            else Some (set_participants r1 (delete uid (participants r1)))) as Hr1'.
  { unfold rs1. case_bool_decide.
    - apply lookup_delete_eq.
    - apply lookup_insert_eq. }
  assert (∀ rid, rid ≠ r1id → rs1 !! rid = rooms s !! rid) as Hrest.
  { intros rid Hrid. unfold rs1. case_bool_decide.
    - by rewrite lookup_delete_ne.
    - by rewrite lookup_insert_ne. }
  (* the join proper, from the state the leave produced *)
  pose proof (joinRoom_fresh (leaveRoom s sid r1id).1 sid
                (Socket (userId sk) None (joinedRooms sk ∖ {[r1id]})) uid
                (set_currentRoomId u None) r2id r2) as Hjoin.
  rewrite Hleave in Hjoin |- *. simpl in Hjoin |- *.
  rewrite !lookup_insert_eq in Hjoin.
  specialize (Hjoin eq_refl Hu eq_refl Hr2' eq_refl ltac:(lia)).
  eexists _, _. split; [|split; [exact Hjoin|split; [|split; [|split]]]].
  - (* the whole join *)
    unfold joinRoom.
    rewrite Hsk, Hu, Hr2, (has_record_own _ _ _ Hon), Hcur, Ht1.
    rewrite bool_decide_eq_false_2 by done.
    replace (String.eqb r1id r2id) with false
      by (symmetry; apply String.eqb_neq; congruence).
    assert (leaveRoom_throws s sid r1id = false) as ->.
    { unfold leaveRoom_throws. rewrite Hsk. simpl. rewrite Hu.
      by rewrite (inherited_only_own _ _ _ Hr1). }
    simpl. rewrite Hleave. simpl.
    rewrite Hr2', !lookup_insert_eq. simpl. rewrite ?Hu. reflexivity.
  - unfold joined_state. simpl. by rewrite lookup_insert_ne.
  - unfold member_of, joined_state. simpl. rewrite lookup_insert_ne by done.
    rewrite Hr1'. case_bool_decide; [done|]. simpl.
    rewrite lookup_delete_eq. apply bool_decide_eq_false. by intros [? ?].
  - unfold member_of, joined_state. simpl. rewrite lookup_insert_eq. simpl.
    rewrite lookup_insert_eq. apply bool_decide_eq_true. eauto.
  - intros rid Hrid1 Hrid2. unfold joined_state. simpl.
    rewrite lookup_insert_ne by done. by apply Hrest.
Qed.

(** C9, as stated, fails: the current room is a field of the socket, not of
    the identity.  Alice opens r1 on socket s1, registers again on socket
    s3 and joins bob's r2 there: s3 has no current room, nothing is left,
    and alice is a participant of r1 and of r2. *)
Lemma join_on_second_socket_in_two_rooms :
  (λ s, (member_of s "r1" "alice", member_of s "r2" "alice"))
    <$> run init two_rooms = Some (true, false)
  ∧ (λ s, (member_of s "r1" "alice", member_of s "r2" "alice"))
    <$> run init alice_on_two_sockets = Some (true, true).
Proof. vm_compute. done. Qed.

(** ** The events behind the two helpers *)

(** The leave_room event of the last member of the socket's room. *)
Lemma leave_room_last_member s sid sk uid u rid r :
  sockets s !! sid = Some sk →
  userId sk = Some uid →
  currentRoomId sk = Some rid →
  truthy rid = true →
  onlineUsers s !! uid = Some u →
  rooms s !! rid = Some r →
  truthy_opt (participants r !! uid) = true →
  (∀ v, v ≠ uid → participants r !! v = None) →
  ∃ s' out, handle s sid leave_room = Some (s', out) ∧ rooms s' !! rid = None.
Proof.
  intros Hsk Hu Hcur Ht Hon Hr Hp Hlast.
  unfold handle, on_leave_room. rewrite Hsk, Hcur, Ht.
  assert (leaveRoom_throws s sid rid = false) as ->.
  { unfold leaveRoom_throws. rewrite Hsk. simpl. rewrite Hu.
    by rewrite (inherited_only_own _ _ _ Hr). }
  eexists _, _. split; [by rewrite (surjective_pairing (leaveRoom s sid rid))|].
  by eapply leaveRoom_last_member.
Qed.


(** ** The theorem at work: alice moves from r1 to bob's r2 *)

Lemma join_moves_between_rooms_witness :
  ∃ s' out2,
    joinRoom (after two_rooms) "s1" "r2"
      = Some (s', (leaveRoom (after two_rooms) "s1" "r1").2 ++ out2)
    ∧ joinRoom (leaveRoom (after two_rooms) "s1" "r1").1 "s1" "r2" = Some (s', out2)
    ∧ rooms s' !! "r1" = None
    ∧ member_of s' "r1" "alice" = false
    ∧ member_of s' "r2" "alice" = true
    ∧ ∀ rid, rid ≠ "r1" → rid ≠ "r2" → rooms s' !! rid = rooms (after two_rooms) !! rid.
Proof.
  pose proof (join_moves_between_rooms (after two_rooms) "s1"
                (Socket (Some "alice") (Some "r1") {["r1"]}) "alice"
                (User "s1" "Alice" (Some "r1"))
                "r1" (Room "r1" "Um" "alice" {["alice" := "s1"]})
                "r2" (Room "r2" "Dois" "bob" {["bob" := "s2"]})) as H.
  do 7 (lapply H; [clear H; intros H | vm_compute; reflexivity]).
  lapply H; [clear H; intros H | discriminate].
  lapply H; [clear H; intros H | vm_compute; reflexivity].
  exact H.
Defined.

End OpenJoinFacts.

(** * The two servers side by side *)

(** C5: in the open-join server, whose rooms are all created on demand, the
    leave that takes the last member out of a room deletes the room from
    the registry; in the access-controlled server the primary room is in
    the registry of every reachable state, whatever its membership. *)
Theorem empty_room_removed_unless_primary :
  (∀ s sid sk uid u rid r,
     OpenJoin.sockets s !! sid = Some sk →
     OpenJoin.userId sk = Some uid →
     OpenJoin.onlineUsers s !! uid = Some u →
     OpenJoin.rooms s !! rid = Some r →
     truthy_opt (OpenJoin.participants r !! uid) = true →
     (∀ v, v ≠ uid → OpenJoin.participants r !! v = None) →
     OpenJoin.rooms (OpenJoin.leaveRoom s sid rid).1 !! rid = None)
  ∧ (∀ evs s,
       Mentoria.run Mentoria.init evs = Some s →
       is_Some (Mentoria.mentoriaRooms s !! Mentoria.defaultMentoriaRoomId)).
Proof.
  split.
  - apply leaveRoom_last_member.
  - apply primary_room_persists.
Qed.

Lemma empty_room_removed_unless_primary_witness :
  OpenJoin.rooms (OpenJoin.leaveRoom (OpenJoin.after OpenJoin.alice_room) "s1" "r1").1 !! "r1"
  = None
  ∧ Mentoria.participants (Mentoria.primary_room (Mentoria.after Mentoria.mentor_in_and_out)) = ∅
  ∧ is_Some (Mentoria.mentoriaRooms (Mentoria.after Mentoria.mentor_in_and_out)
               !! Mentoria.defaultMentoriaRoomId).
Proof.
  split; [|split].
  - apply (proj1 empty_room_removed_unless_primary (OpenJoin.after OpenJoin.alice_room) "s1"
             (OpenJoin.Socket (Some "alice") (Some "r1") {["r1"]}) "alice"
             (OpenJoin.User "s1" "Alice" (Some "r1")) "r1"
             (OpenJoin.Room "r1" "Um" "alice" {["alice" := "s1"]}));
      try (vm_compute; reflexivity).
    intros v Hv. simpl. by apply lookup_singleton_ne.
  - vm_compute. reflexivity.
  - apply (proj2 empty_room_removed_unless_primary Mentoria.mentor_in_and_out).
    vm_compute. reflexivity.
Defined.

(** C8: an offer, an answer or an ICE candidate whose target has no entry
    in [onlineUsers] is dropped by either server: the state is the same and
    nothing is emitted, neither to the target nor to the sender. *)
Theorem relay_to_offline_target_dropped :
  (∀ s sid ev t,
     Mentoria.relay_target ev = Some t →
     Mentoria.onlineUsers s !! t = None →
     Mentoria.handle s sid ev = Some (s, []))
  ∧ (∀ s sid ev t,
       OpenJoin.relay_target ev = Some t →
       OpenJoin.onlineUsers s !! t = None →
       OpenJoin.handle s sid ev = Some (s, [])).
Proof.
  split; intros s sid ev t Ht Hoff.
  - unfold Mentoria.handle. destruct (Mentoria.sockets s !! sid) as [sk|];
      destruct ev; simplify_eq/=; try done;
      unfold Mentoria.relay; rewrite Hoff;
      destruct (Mentoria.userId sk); try done;
      by match goal with |- context [if ?b then _ else _] => destruct b end.
  - unfold OpenJoin.handle. destruct (OpenJoin.sockets s !! sid) as [sk|];
      destruct ev; simplify_eq/=; try done;
      unfold OpenJoin.relay; by rewrite Hoff.
Qed.

Lemma relay_to_offline_target_dropped_witness :
  Mentoria.handle (Mentoria.after Mentoria.mentor_and_alice) "s2"
    (Mentoria.webrtc_offer "bob" Mentoria.defaultMentoriaRoomId (JStr "v=0"))
  = Some (Mentoria.after Mentoria.mentor_and_alice, [])
  ∧ OpenJoin.handle (OpenJoin.after OpenJoin.alice_room) "s1"
      (OpenJoin.webrtc_ice_candidate "bob" "r1" (JStr "candidate:0"))
    = Some (OpenJoin.after OpenJoin.alice_room, []).
Proof.
  split.
  - apply (proj1 relay_to_offline_target_dropped _ "s2" _ "bob"); vm_compute; reflexivity.
  - apply (proj2 relay_to_offline_target_dropped _ "s1" _ "bob"); vm_compute; reflexivity.
Defined.



(** * Further properties of the access-controlled server *)

Section MentoriaRegistry.
Import Mentoria.

Implicit Types (s : state) (r : room) (sk : socket) (sid uid roomId : string).

(** ** What a handler can do to a room

    The seven elementary updates of a room that the handlers perform: the
    first mentor claims the room, a user is admitted, a participant is
    removed, a join request is recorded or consumed, an invitation is
    recorded or consumed. *)
Inductive room_step (r : room) : room → Prop :=
| step_claim uid :
    truthy_opt (mentorId r) = false → truthy uid = true →
    room_step r (set_mentorId r (Some uid))
| step_admit uid sid dn :
    truthy uid = true → is_joined r uid = false →
    room_step r (set_participants r (<[uid := Participant sid dn "joined"]> (participants r)))
| step_remove uid :
    is_Some (participants r !! uid) →
    room_step r (set_participants r (delete uid (participants r)))
| step_request uid q :
    truthy uid = true → has_record (participants r) uid = false →
    room_step r (set_pendingRequests r (<[uid := q]> (pendingRequests r)))
| step_consume uid :
    is_Some (pendingRequests r !! uid) →
    room_step r (set_pendingRequests r (delete uid (pendingRequests r)))
| step_invite target inviter :
    same_id (mentorId r) (Some inviter) = true →
    room_step r (set_invitedUsers r (<[target := inviter]> (invitedUsers r)))
| step_accept uid :
    truthy_opt (invitedUsers r !! uid) = true →
    room_step r (set_invitedUsers r (delete uid (invitedUsers r))).

(** The registry [rs'] has the rooms of [rs], under the same keys, each
    reached by elementary updates. *)
Definition registry_evolves (rs rs' : gmap string room) : Prop :=
  ∀ rid, option_Forall2 (rtc room_step) (rs !! rid) (rs' !! rid).

Lemma registry_evolves_refl rs : registry_evolves rs rs.
Proof. intros rid. destruct (rs !! rid); by constructor. Qed.

Lemma registry_evolves_trans rs1 rs2 rs3 :
  registry_evolves rs1 rs2 → registry_evolves rs2 rs3 → registry_evolves rs1 rs3.
Proof.
  intros H12 H23 rid. specialize (H12 rid). specialize (H23 rid).
  destruct H12 as [r1 r2 Hr|]; inversion H23; simplify_eq; constructor.
  by etrans.
Qed.

Lemma registry_evolves_insert rs rid r r' :
  rs !! rid = Some r → room_step r r' → registry_evolves rs (<[rid := r']> rs).
Proof.
  intros Hr Hstep x. destruct (decide (rid = x)) as [->|Hne].
  - rewrite lookup_insert_eq, Hr. constructor. by apply rtc_once.
  - rewrite lookup_insert_ne by done. destruct (rs !! x); by constructor.
Qed.

(** The removal, with what its guard established. *)
Lemma removeUser_spec s sid roomId :
  removeUserFromMentoriaRoom s sid roomId = (s, [])
  ∨ ∃ r sk uid,
      mentoriaRooms s !! roomId = Some r ∧ sockets s !! sid = Some sk
      ∧ userId sk = Some uid ∧ truthy uid = true ∧ has_record (participants r) uid = true
      ∧ removeUserFromMentoriaRoom s sid roomId =
          (let s' :=
             State (onlineUsers s)
                   (<[roomId := set_participants r (delete uid (participants r))]>
                      (mentoriaRooms s))
                   (<[sid := Socket (userId sk) (isMentor sk)
                                    (if bool_decide (currentRoomId sk = Some roomId)
                                     then None else currentRoomId sk)
                                    (joinedRooms sk ∖ {[roomId]})]> (sockets s)) in
           (s', broadcastMentoriaRoomParticipants s' roomId ++ [status_msg sid "not_joined"])).
Proof.
  unfold removeUserFromMentoriaRoom.
  destruct (mentoriaRooms s !! roomId) as [r|]; [|by left].
  destruct (sockets s !! sid) as [sk|]; [|by left].
  destruct (userId sk) as [uid|] eqn:Hu; [|by left].
  destruct (truthy uid) eqn:Ht; [|by left]. simpl.
  destruct (has_record (participants r) uid) eqn:Hp; [|by left].
  right. exists r, sk, uid. rewrite Hu. eauto 10.
Qed.

(** Deleting a participant the room does not hold leaves the room as it
    is. *)
Lemma delete_absent_participant r uid :
  participants r !! uid = None → set_participants r (delete uid (participants r)) = r.
Proof. intros H. unfold set_participants. rewrite delete_id by done. by destruct r. Qed.

Lemma remove_steps r uid :
  rtc room_step r (set_participants r (delete uid (participants r))).
Proof.
  destruct (participants r !! uid) eqn:Hp.
  - apply rtc_once. constructor. eauto.
  - by rewrite delete_absent_participant.
Qed.

Lemma registry_evolves_insert_steps rs rid r r' :
  rs !! rid = Some r → rtc room_step r r' → registry_evolves rs (<[rid := r']> rs).
Proof.
  intros Hr Hstep x. destruct (decide (rid = x)) as [->|Hne].
  - rewrite lookup_insert_eq, Hr. by constructor.
  - rewrite lookup_insert_ne by done. destruct (rs !! x); by constructor.
Qed.

Lemma addUser_evolves s sid roomId dn js :
  registry_evolves (mentoriaRooms s)
                   (mentoriaRooms (addUserToMentoriaRoom s sid roomId dn js).1).
Proof.
  destruct (addUser_cases s sid roomId dn js)
    as [->|(r & sk & uid & Hr & _ & _ & Ht & Hj & ->)]; simpl;
    [apply registry_evolves_refl|].
  eapply registry_evolves_insert; [done|]. by constructor.
Qed.

Lemma removeUser_evolves s sid roomId :
  registry_evolves (mentoriaRooms s)
                   (mentoriaRooms (removeUserFromMentoriaRoom s sid roomId).1).
Proof.
  destruct (removeUser_spec s sid roomId)
    as [->|(r & sk & uid & Hr & _ & _ & _ & Hp & ->)]; simpl;
    [apply registry_evolves_refl|].
  eapply registry_evolves_insert_steps; [done|]. apply remove_steps.
Qed.

Local Ltac helper_state :=
  match goal with
  | H : addUserToMentoriaRoom ?s0 ?a ?b ?c ?d = (?s1, ?o) |- _ =>
      replace s1 with (addUserToMentoriaRoom s0 a b c d).1 in * by (by rewrite H)
  | H : removeUserFromMentoriaRoom ?s0 ?a ?b = (?s1, ?o) |- _ =>
      replace s1 with (removeUserFromMentoriaRoom s0 a b).1 in * by (by rewrite H)
  end.

Local Ltac evolve_step :=
  first
    [ apply registry_evolves_refl
    | eapply registry_evolves_insert; [eassumption|]; constructor; eauto; done ].

(** Every handler evolves the registry. *)
Lemma handle_registry_evolves s sid ev s' out :
  handle s sid ev = Some (s', out) →
  registry_evolves (mentoriaRooms s) (mentoriaRooms s').
Proof.
  unfold handle. destruct (sockets s !! sid) as [sk|] eqn:Hsk.
  2: { destruct ev; intros; simplify_eq; apply registry_evolves_refl. }
  destruct ev; intros Hh;
    try (apply fmap_Some in Hh as (? & ? & ?)); simplify_eq;
    try apply registry_evolves_refl.
  - unfold on_register_user in Hh.
    repeat case_match; simplify_eq; simpl; try apply registry_evolves_refl.
    eapply registry_evolves_insert; [eassumption|]. constructor.
    + by apply negb_true_iff.
    + match goal with H : truthy _ && truthy _ = true |- _ =>
        by apply andb_true_iff in H as [? ?] end.
  - unfold on_check_access_status in Hh.
    repeat case_match; simplify_eq; apply registry_evolves_refl.
  - unfold on_request_join in Hh.
    repeat case_match; simplify_eq; simpl; try apply registry_evolves_refl;
      (eapply registry_evolves_insert; [eassumption|]); constructor; try done;
      match goal with H : _ || _ || _ = false |- _ =>
        apply orb_false_iff in H as [H _]; apply orb_false_iff in H as [H _];
        by apply negb_false_iff in H end.
  - unfold on_invite_user in Hh.
    repeat case_match; simplify_eq; simpl; try apply registry_evolves_refl;
      (eapply registry_evolves_insert; [eassumption|]); constructor;
      by apply negb_false_iff.
  - unfold on_accept_invitation in Hh.
    repeat case_match; simplify_eq; simpl; try apply registry_evolves_refl;
      helper_state;
      (eapply registry_evolves_trans; [|apply addUser_evolves]); simpl;
      (eapply registry_evolves_insert; [eassumption|]); constructor;
      match goal with
      | H : invitedUsers _ !! _ = Some _, H' : negb (truthy _) || _ = false |- _ =>
          rewrite H; simpl; apply orb_false_iff in H' as [H' _]; by apply negb_false_iff in H'
      end.
  - unfold on_approve_request in Hh.
    repeat case_match; simplify_eq; simpl; try evolve_step.
    helper_state.
    eapply registry_evolves_trans; [|apply addUser_evolves]. simpl. evolve_step.
  - unfold on_deny_request in Hh.
    repeat case_match; simplify_eq; simpl; evolve_step.
  - unfold on_user_ready_for_webrtc in Hh.
    repeat case_match; simplify_eq; apply registry_evolves_refl.
  - unfold on_leave_room in Hh.
    repeat case_match; simplify_eq; try apply registry_evolves_refl.
    helper_state. apply removeUser_evolves.
  - unfold on_disconnect in Hh.
    repeat case_match; simplify_eq; simpl; try apply registry_evolves_refl.
    helper_state. apply removeUser_evolves.
  - unfold on_no_payload in Hh.
    repeat case_match; simplify_eq; apply registry_evolves_refl.
Qed.

(** X1: whatever the event and the state, a handler leaves the keys of the
    registry as they are (no room is added or removed) and changes a room
    only by elementary updates. *)
Theorem handlers_update_rooms_in_place s sid ev s' out :
  handle s sid ev = Some (s', out) →
  (∀ rid, is_Some (mentoriaRooms s' !! rid) ↔ is_Some (mentoriaRooms s !! rid))
  ∧ registry_evolves (mentoriaRooms s) (mentoriaRooms s').
Proof.
  intros Hh. pose proof (handle_registry_evolves _ _ _ _ _ Hh) as Hev.
  split; [|done]. intros rid. specialize (Hev rid).
  inversion Hev; split; intros [? ?]; simplify_eq; eauto.
Qed.

Lemma handlers_update_rooms_in_place_witness :
  (∀ rid, is_Some (mentoriaRooms (after alice_approved) !! rid)
          ↔ is_Some (mentoriaRooms (after alice_pending) !! rid))
  ∧ registry_evolves (mentoriaRooms (after alice_pending))
                     (mentoriaRooms (after alice_approved)).
Proof.
  apply (handlers_update_rooms_in_place (after alice_pending) "s1"
           (mentoria_approve_request defaultMentoriaRoomId "alice") (after alice_approved)
           (emits_of alice_pending "s1"
              (mentoria_approve_request defaultMentoriaRoomId "alice"))).
  vm_compute; reflexivity.
Defined.

(** ** Invariants of the registry *)

(** What holds of a room whatever happened to it: its participant records
    all carry the status 'joined', its mentor is a proper identity, every
    invitation it holds was issued by its mentor, and every join request it
    holds is filed under a proper identity that is not the name of an
    inherited property. *)
Definition room_ok (r : room) : Prop :=
  (∀ u p, participants r !! u = Some p → p_status p = "joined")
  ∧ (∀ m, mentorId r = Some m → truthy m = true)
  ∧ (∀ t i, invitedUsers r !! t = Some i → mentorId r = Some i)
  ∧ (∀ u, is_Some (pendingRequests r !! u) → truthy u = true ∧ inherited u = false).

Lemma same_id_eq m i : same_id m (Some i) = true → m = Some i.
Proof.
  destruct m as [x|]; simpl; [|done]. intros H. by apply String.eqb_eq in H as ->.
Qed.

Lemma room_step_ok r r' : room_step r r' → room_ok r → room_ok r'.
Proof.
  intros Hstep (Hp & Hm & Hi & Hq).
  destruct Hstep as [uid Hnone Ht|uid sid dn Ht Hj|uid Hin|uid q Ht Hfree|uid Hin
                    |target inviter Hsame|uid Hin];
    (split; [|split; [|split]]); simpl; try done.
  - intros m [= <-]. done.
  - intros t i Hti. destruct (mentorId r) as [m|] eqn:Hmr.
    + simpl in *. by rewrite (Hm m eq_refl) in *.
    + by specialize (Hi t i Hti).
  - intros u p. destruct (decide (uid = u)) as [->|Hne].
    + rewrite lookup_insert_eq. by intros [= <-].
    + rewrite lookup_insert_ne by done. apply Hp.
  - intros u p. destruct (decide (uid = u)) as [->|Hne].
    + by rewrite lookup_delete_eq.
    + rewrite lookup_delete_ne by done. apply Hp.
  - intros u. destruct (decide (uid = u)) as [->|Hne].
    + intros _. by apply has_record_false in Hfree as [_ ?].
    + rewrite lookup_insert_ne by done. apply Hq.
  - intros u. destruct (decide (uid = u)) as [->|Hne].
    + rewrite lookup_delete_eq. by intros [? ?].
    + rewrite lookup_delete_ne by done. apply Hq.
  - intros t i. destruct (decide (target = t)) as [->|Hne].
    + rewrite lookup_insert_eq. intros [= <-]. by apply same_id_eq.
    + rewrite lookup_insert_ne by done. apply Hi.
  - intros t i. destruct (decide (uid = t)) as [->|Hne].
    + by rewrite lookup_delete_eq.
    + rewrite lookup_delete_ne by done. apply Hi.
Qed.

Lemma room_steps_ok r r' : rtc room_step r r' → room_ok r → room_ok r' ∧ room_id r' = room_id r.
Proof.
  induction 1 as [|r1 r2 r3 Hstep _ IH]; [done|].
  intros Hok. destruct (IH (room_step_ok _ _ Hstep Hok)) as [Hok3 Hid].
  split; [done|]. rewrite Hid. by destruct Hstep.
Qed.

Lemma run_registry_evolves evs :
  ∀ s s', run s evs = Some s' → registry_evolves (mentoriaRooms s) (mentoriaRooms s').
Proof.
  induction evs as [|[sid ev] evs IH]; intros s s' Hrun; simpl in Hrun.
  - simplify_eq. apply registry_evolves_refl.
  - destruct (handle s sid ev) as [[s1 out]|] eqn:Hh; [|done].
    eapply registry_evolves_trans; [by eapply handle_registry_evolves|by apply IH].
Qed.

(** The registry of a reachable state: the primary room, well formed, and
    nothing else. *)
Lemma reachable_registry evs s :
  run init evs = Some s →
  (∃ r, mentoriaRooms s !! defaultMentoriaRoomId = Some r
        ∧ room_ok r ∧ room_id r = defaultMentoriaRoomId)
  ∧ ∀ rid, rid ≠ defaultMentoriaRoomId → mentoriaRooms s !! rid = None.
Proof.
  intros Hrun. pose proof (run_registry_evolves _ _ _ Hrun) as Hev. split.
  - specialize (Hev defaultMentoriaRoomId). unfold init in Hev; simpl in Hev.
    rewrite lookup_singleton_eq in Hev. inversion Hev as [r0 r Hsteps|]; simplify_eq.
    exists r. split; [done|]. apply (room_steps_ok _ _ Hsteps).
    repeat split; simpl; intros; simplify_map_eq;
      by match goal with H : is_Some _ |- _ => destruct H end.
  - intros rid Hne. specialize (Hev rid). unfold init in Hev; simpl in Hev.
    rewrite lookup_singleton_ne in Hev by done. by inversion Hev.
Qed.

(** X2: in every state the server reaches, the registry holds the primary
    room and no other room. *)
Theorem only_the_primary_room evs s rid :
  run init evs = Some s →
  is_Some (mentoriaRooms s !! rid) ↔ rid = defaultMentoriaRoomId.
Proof.
  intros Hrun. destruct (reachable_registry evs s Hrun) as [(r & Hr & _) Hrest]. split.
  - intros [x Hx]. destruct (decide (rid = defaultMentoriaRoomId)); [done|].
    by rewrite Hrest in Hx.
  - intros ->. eauto.
Qed.

(** X3: in every state the server reaches, every participant record has the
    status 'joined': the membership set of a room is its whole participant
    table, and the status 'pending_approval' never occurs. *)
Theorem participants_are_joined evs s rid r u :
  run init evs = Some s →
  mentoriaRooms s !! rid = Some r →
  is_joined r u = bool_decide (is_Some (participants r !! u)).
Proof.
  intros Hrun Hr.
  destruct (reachable_registry evs s Hrun) as [(r0 & Hr0 & (Hp & _) & _) Hrest].
  destruct (decide (rid = defaultMentoriaRoomId)) as [->|Hne]; [|by rewrite Hrest in Hr].
  simplify_eq. unfold is_joined. destruct (participants r !! u) as [p|] eqn:Hu.
  - rewrite (Hp u p Hu). by rewrite bool_decide_eq_true_2.
  - symmetry. apply bool_decide_eq_false. by intros [? ?].
Qed.

(** X4: in every state the server reaches, the authority of a room, when
    set, is a non-empty identity, and every invitation the room holds names
    that authority as the inviter. *)
Theorem invitations_name_the_authority evs s rid r target inviter :
  run init evs = Some s →
  mentoriaRooms s !! rid = Some r →
  invitedUsers r !! target = Some inviter →
  mentorId r = Some inviter ∧ truthy inviter = true.
Proof.
  intros Hrun Hr Hi.
  destruct (reachable_registry evs s Hrun) as [(r0 & Hr0 & (_ & Hm & Hinv & _) & _) Hrest].
  destruct (decide (rid = defaultMentoriaRoomId)) as [->|Hne]; [|by rewrite Hrest in Hr].
  simplify_eq. split; [by eapply Hinv|]. apply Hm. by eapply Hinv.
Qed.

(** ** A request that has been consumed *)

(** C7: a join request of [target] was on record in a state the server
    reached, and in a later state it no longer is (it has been consumed, by
    whatever events came in between).  An approval issued then on a socket
    flagged as mentor is answered with the not-found error and changes
    nothing, the membership set included. *)
Theorem approve_after_consumed evs s0 r0 evs' s sid sk roomId target :
  run init evs = Some s0 →
  mentoriaRooms s0 !! roomId = Some r0 →
  is_Some (pendingRequests r0 !! target) →
  run s0 evs' = Some s →
  (∀ r, mentoriaRooms s !! roomId = Some r → pendingRequests r !! target = None) →
  sockets s !! sid = Some sk →
  isMentor sk = true →
  handle s sid (mentoria_approve_request roomId target)
  = Some (s, [error_message sid msg_request_not_found]).
Proof.
  intros Hrun0 Hr0 Hwas Hrun Hgone Hsk Hm.
  destruct (reachable_registry evs s0 Hrun0) as [(r & Hr & (_ & _ & _ & Hq) & _) Hrest].
  destruct (decide (roomId = defaultMentoriaRoomId)) as [->|Hne]; [|by rewrite Hrest in Hr0].
  simplify_eq. destruct (Hq target Hwas) as [Ht Hplain].
  apply (approve_no_record s sid sk); try done.
  intros r1 Hr1. apply has_record_false. split; [by apply Hgone|done].
Qed.

Lemma approve_after_consumed_witness :
  handle (after alice_denied) "s1" (mentoria_approve_request defaultMentoriaRoomId "alice")
  = Some (after alice_denied, [error_message "s1" msg_request_not_found]).
Proof.
  apply (approve_after_consumed alice_pending (after alice_pending)
           (primary_room (after alice_pending))
           [("s1", mentoria_deny_request defaultMentoriaRoomId "alice")]
           (after alice_denied) "s1" (Socket (Some "mentor") true None ∅)
           defaultMentoriaRoomId "alice");
    try (vm_compute; reflexivity).
  - vm_compute. eauto.
  - intros r Hr. vm_compute in Hr. injection Hr as <-. vm_compute. reflexivity.
Defined.

End MentoriaRegistry.

Section MentoriaAccess.
Import Mentoria.

Implicit Types (s : state) (r : room) (sk : socket) (sid uid roomId : string).

(** ** Who may invite, approve and deny *)

(** X5: an invitation, an approval or a denial issued on a socket that is
    not flagged as mentor, or whose identity is not the authority of the
    room (or for a room that does not exist), changes nothing and is
    answered with exactly one error message to the caller. *)
Theorem only_the_authority_invites_or_decides s sid sk roomId target ev :
  sockets s !! sid = Some sk →
  isMentor sk = false
  ∨ (∀ r, mentoriaRooms s !! roomId = Some r → same_id (mentorId r) (userId sk) = false) →
  ev = mentoria_invite_user roomId target
  ∨ ev = mentoria_approve_request roomId target
  ∨ ev = mentoria_deny_request roomId target →
  ∃ text, handle s sid ev = Some (s, [error_message sid text]).
Proof.
  intros Hsk Hna Hev. rewrite (handle_connected _ _ _ _ Hsk).
  destruct Hev as [->| [->| ->]]; simpl.
  - unfold on_invite_user.
    destruct (negb (isMentor sk) || negb (truthy roomId) || negb (truthy target)
              || negb (has_record (onlineUsers s) target)) eqn:Hg;
      [by eauto|].
    destruct Hna as [Hm|Hna]; [by rewrite Hm in Hg|].
    destruct (mentoriaRooms s !! roomId) as [r|]; [|by eauto].
    destruct (userId sk) as [uid|]; [|by eauto].
    rewrite (Hna r eq_refl). simpl. by eauto.
  - unfold on_approve_request.
    destruct (negb (isMentor sk) || negb (truthy roomId) || negb (truthy target)) eqn:Hg;
      [by eauto|].
    destruct Hna as [Hm|Hna]; [by rewrite Hm in Hg|].
    destruct (mentoriaRooms s !! roomId) as [r|]; [|by eauto].
    rewrite (Hna r eq_refl). simpl. by eauto.
  - unfold on_deny_request.
    destruct (negb (isMentor sk) || negb (truthy roomId) || negb (truthy target)) eqn:Hg;
      [by eauto|].
    destruct Hna as [Hm|Hna]; [by rewrite Hm in Hg|].
    destruct (mentoriaRooms s !! roomId) as [r|]; [|by eauto].
    rewrite (Hna r eq_refl). simpl. by eauto.
Qed.

(** Alice, who is no mentor, tries to approve her own request. *)
Lemma only_the_authority_invites_or_decides_witness :
  ∃ text,
    handle (after alice_pending) "s2" (mentoria_approve_request defaultMentoriaRoomId "alice")
    = Some (after alice_pending, [error_message "s2" text]).
Proof.
  apply (only_the_authority_invites_or_decides (after alice_pending) "s2"
           (Socket (Some "alice") false None ∅) defaultMentoriaRoomId "alice").
  - vm_compute; reflexivity.
  - by left.
  - right. by left.
Defined.

(** ** Invitations *)

(** X6: in a room of the registry, accepting with an inviter other than the
    recorded one, or with no invitation on record, is answered with the
    invalid-invitation error and changes nothing: the user stays invited, or
    absent, as before. *)
Theorem accept_needs_the_recorded_inviter s sid sk uid roomId r inviterId :
  sockets s !! sid = Some sk →
  userId sk = Some uid →
  truthy uid = true →
  truthy roomId = true →
  mentoriaRooms s !! roomId = Some r →
  invitedUsers r !! uid ≠ Some inviterId →
  handle s sid (mentoria_accept_invitation roomId inviterId)
  = Some (s, [error_message sid msg_bad_invitation]).
Proof.
  intros Hsk Hu Ht Hrid Hr Hno. rewrite (handle_connected _ _ _ _ Hsk).
  unfold on_accept_invitation. rewrite Hu, Ht, Hrid, Hr. simpl.
  destruct (invitedUsers r !! uid) as [i|]; [|done].
  destruct (negb (truthy i)); [done|]. simpl.
  destruct (String.eqb i inviterId) eqn:He; [|done].
  apply String.eqb_eq in He as ->. done.
Qed.

Lemma accept_needs_the_recorded_inviter_witness :
  handle (after alice_invited) "s2" (mentoria_accept_invitation defaultMentoriaRoomId "alice")
  = Some (after alice_invited, [error_message "s2" msg_bad_invitation]).
Proof.
  apply (accept_needs_the_recorded_inviter (after alice_invited) "s2"
           (Socket (Some "alice") false None ∅) "alice" defaultMentoriaRoomId
           (primary_room (after alice_invited)));
    try (vm_compute; reflexivity).
  vm_compute. discriminate.
Defined.



(** ** Requests, approvals and denials *)






End MentoriaAccess.

Section MentoriaLeaving.
Import Mentoria.

Implicit Types (s : state) (r : room) (sk : socket) (sid uid roomId : string).

(** ** Leaving and disconnecting *)








(** The registry of a reachable state is the primary room alone, so the
    search for the room of a disconnecting user looks at that room. *)
Lemma find_room_of_reachable evs s uid :
  run init evs = Some s →
  ∃ r, mentoriaRooms s !! defaultMentoriaRoomId = Some r
       ∧ room_id r = defaultMentoriaRoomId
       ∧ (∀ x, x ≠ defaultMentoriaRoomId → mentoriaRooms s !! x = None)
       ∧ find_room_of s uid
         = if has_record (participants r) uid then Some r else None.
Proof.
  intros Hrun. destruct (reachable_registry evs s Hrun) as [(r & Hr & _ & Hid) Hrest].
  exists r. repeat split; try done.
  assert (mentoriaRooms s = {[defaultMentoriaRoomId := r]}) as Hrooms.
  { apply map_eq. intros x. destruct (decide (x = defaultMentoriaRoomId)) as [->|Hne].
    - by rewrite lookup_singleton_eq.
    - rewrite lookup_singleton_ne by done. by apply Hrest. }
  unfold find_room_of. rewrite Hrooms, map_to_list_singleton. simpl.
  by destruct (has_record (participants r) uid).
Qed.



End MentoriaLeaving.

Section MentoriaDirectory.
Import Mentoria.

Implicit Types (s : state) (r : room) (sk : socket) (sid uid roomId : string).

(** ** Registration and presence *)







(** ** Handlers that throw *)

(** The room id a handler uses to read [room.participants] or
    [room.invitedUsers] with no test on the room but its truthiness. *)
Definition room_read (ev : event) : option string :=
  match ev with
  | mentoria_check_access_status rid | mentoria_request_join rid
  | mentoria_accept_invitation rid _ | mentoria_user_ready_for_webrtc rid
  | mentoria_leave_room rid | chat_message rid _ _ => Some rid
  | _ => None
  end.

(** X15: in a state the server reaches, a handler throws only in one of
    three situations, always on a socket that has registered: the event
    came without a payload; the event names, as its room, a property that
    the registry inherits from [Object.prototype]; the event is an
    invitation or an acceptance and the identity bound to the socket has
    no directory record (the record was deleted by the disconnect of
    another socket registered under the same identity) nor is the name of
    an inherited property. *)
Theorem throws_only_without_directory_entry evs s sid ev :
  run init evs = Some s →
  handle s sid ev = None →
  ∃ sk,
    sockets s !! sid = Some sk
    ∧ ((∃ eventName, ev = no_payload eventName
                     ∧ (truthy_opt (userId sk) = true ∨ isMentor sk = true))
       ∨ (∃ rid, room_read ev = Some rid ∧ inherited rid = true
                 ∧ mentoriaRooms s !! rid = None ∧ truthy_opt (userId sk) = true)
       ∨ (∃ uid, userId sk = Some uid ∧ onlineUsers s !! uid = None
                 ∧ inherited uid = false
                 ∧ ((∃ rid t, ev = mentoria_invite_user rid t)
                    ∨ (∃ rid i, ev = mentoria_accept_invitation rid i)))).
Proof.
  intros Hrun.
  destruct (reachable_registry evs s Hrun) as [(r & Hr & _ & Hid) _].
  unfold handle. destruct (sockets s !! sid) as [sk|] eqn:Hsk; [|by destruct ev].
  intros Hh. exists sk. split; [done|].
  assert (∀ uid, userId sk = Some uid → negb (truthy uid) = false →
                 truthy_opt (userId sk) = true) as Hreg.
  { intros uid -> Ht. simpl. by apply negb_false_iff. }
  destruct ev; try done.
  - unfold on_register_user in Hh. rewrite Hr in Hh. repeat case_match; simplify_eq.
  - unfold on_check_access_status in Hh. repeat case_match; simplify_eq.
    right; left. eexists. repeat split; eauto.
    match goal with H : _ || _ = false |- _ => apply orb_false_iff in H as [? _] end. eauto.
  - unfold on_request_join in Hh. repeat case_match; simplify_eq.
    right; left. eexists. repeat split; eauto.
    match goal with H : _ || _ || _ = false |- _ =>
      apply orb_false_iff in H as [H _]; apply orb_false_iff in H as [? _] end. eauto.
  - unfold on_invite_user in Hh. repeat case_match; simplify_eq.
    right; right. eexists. repeat split; eauto.
  - unfold on_accept_invitation in Hh. repeat case_match; simplify_eq.
    + right; right. eexists. repeat split; eauto.
    + right; left. eexists. repeat split; eauto.
      match goal with H : _ || _ = false |- _ => apply orb_false_iff in H as [? _] end. eauto.
  - unfold on_approve_request in Hh. repeat case_match; simplify_eq.
  - unfold on_deny_request in Hh. repeat case_match; simplify_eq.
  - unfold on_user_ready_for_webrtc in Hh. repeat case_match; simplify_eq.
    right; left. eexists. repeat split; eauto.
    match goal with H : _ || _ = false |- _ => apply orb_false_iff in H as [? _] end. eauto.
  - unfold on_leave_room, inherited_only in Hh. repeat case_match; simplify_eq.
    right; left. eexists. repeat split; eauto.
    match goal with H : _ && _ = true |- _ => by apply andb_true_iff in H as [? _] end.
  - apply fmap_None in Hh. unfold on_chat_message in Hh. repeat case_match; simplify_eq.
    right; left. eexists. repeat split; eauto.
    + match goal with H : inherited _ && _ = true |- _ =>
        by apply andb_true_iff in H as [? _] end.
    + match goal with H : _ || _ = false |- _ => apply orb_false_iff in H as [? _] end. eauto.
  - unfold on_disconnect in Hh. repeat case_match; simplify_eq.
    match goal with H : find_room_of _ ?u = Some _ |- _ =>
      destruct (find_room_of_reachable evs s u Hrun) as (r1 & Hr1 & Hid1 & _ & Hf);
      rewrite Hf in H; case_match; simplify_eq end.
    match goal with
    | H' : inherited_only _ (room_id ?r1) = true, Hi : room_id ?r1 = _,
      Hl : mentoriaRooms _ !! _ = Some ?r1 |- _ =>
        rewrite Hi, (inherited_only_own _ _ _ Hl) in H'
    end.
    done.
  - unfold on_no_payload in Hh. left. eexists. split; [done|].
    repeat case_match; simplify_eq; eauto.
Qed.

(** The mentor registers on two sockets; the second one disconnects and
    takes the directory record with it; the first one, still flagged as the
    mentor, invites alice. *)
Definition mentor_superseded : list (string * event) :=
  [("s1", connection); ("s1", register_user "mentor" "Mentor" true);
   ("s3", connection); ("s3", register_user "mentor" "Mentor" true);
   ("s3", disconnect);
   ("s2", connection); ("s2", register_user "alice" "Alice" false)].

Lemma throws_only_without_directory_entry_witness :
  ∃ sk,
    sockets (after mentor_superseded) !! "s1" = Some sk
    ∧ ((∃ eventName, mentoria_invite_user defaultMentoriaRoomId "alice" = no_payload eventName
                     ∧ (truthy_opt (userId sk) = true ∨ isMentor sk = true))
       ∨ (∃ rid, room_read (mentoria_invite_user defaultMentoriaRoomId "alice") = Some rid
                 ∧ inherited rid = true
                 ∧ mentoriaRooms (after mentor_superseded) !! rid = None
                 ∧ truthy_opt (userId sk) = true)
       ∨ (∃ uid, userId sk = Some uid
                 ∧ onlineUsers (after mentor_superseded) !! uid = None
                 ∧ inherited uid = false
                 ∧ ((∃ rid t, mentoria_invite_user defaultMentoriaRoomId "alice"
                              = mentoria_invite_user rid t)
                    ∨ (∃ rid i, mentoria_invite_user defaultMentoriaRoomId "alice"
                                = mentoria_accept_invitation rid i)))).
Proof.
  apply (throws_only_without_directory_entry mentor_superseded (after mentor_superseded) "s1"
           (mentoria_invite_user defaultMentoriaRoomId "alice"));
    vm_compute; reflexivity.
Defined.

End MentoriaDirectory.

Section MentoriaMessages.
Import Mentoria.

Implicit Types (s : state) (r : room) (sk : socket) (sid uid roomId : string).

(** The run of [mentor_superseded] ends in a throw. *)
Lemma invite_after_superseded_throws :
  then_handle mentor_superseded "s1" (mentoria_invite_user defaultMentoriaRoomId "alice") = None.
Proof. vm_compute. reflexivity. Qed.

(** A user registered under the name of an inherited property is told to be
    in the room already, and a request that names such a property as its
    room throws. *)
Lemma request_join_under_inherited_names :
  then_handle [("s1", connection); ("s1", register_user "constructor" "C" false)]
              "s1" (mentoria_request_join defaultMentoriaRoomId)
  = Some (after [("s1", connection); ("s1", register_user "constructor" "C" false)],
          [error_message "s1" msg_already])
  ∧ then_handle alice_alone "s1" (mentoria_request_join "toString") = None
  ∧ then_handle alice_alone "s1" (no_payload "mentoria_request_join") = None.
Proof. vm_compute. done. Qed.

(** ** Introductions and chat *)









End MentoriaMessages.

(** * Further properties of the open-join server *)

Section OpenJoinRooms.
Import OpenJoin.

Implicit Types (s : state) (r : room) (sk : socket) (sid uid rid : string).

(** ** Leaving *)

(** A leave either does nothing at all or passed its guard. *)
Lemma leaveRoom_cases s sid rid :
  leaveRoom s sid rid = (s, [])
  ∨ ∃ sk uid r,
      sockets s !! sid = Some sk ∧ userId sk = Some uid ∧ rooms s !! rid = Some r
      ∧ has_record (onlineUsers s) uid = true
      ∧ has_string (participants r) uid = true
      ∧ (leaveRoom s sid rid).1
        = State (match onlineUsers s !! uid with
                 | Some u => <[uid := set_currentRoomId u None]> (onlineUsers s)
                 | None => onlineUsers s
                 end)
                (if bool_decide (size (delete uid (participants r)) = 0)
                 then delete rid (rooms s)
                 else <[rid := set_participants r (delete uid (participants r))]> (rooms s))
                (<[sid := Socket (userId sk) None (joinedRooms sk ∖ {[rid]})]> (sockets s)).
Proof.
  unfold leaveRoom.
  destruct (sockets s !! sid) as [sk|]; [|by left].
  destruct (userId sk) as [uid|] eqn:Hu; [|by left].
  destruct (rooms s !! rid) as [r|]; [|by left].
  destruct (has_record (onlineUsers s) uid) eqn:Hon; [|by left].
  destruct (has_string (participants r) uid) eqn:Hp; [|by left].
  right. exists sk, uid, r. simpl. by rewrite Hu.
Qed.

(** What a leave does not touch. *)
Lemma leaveRoom_frame s sid rid :
  (∀ x, x ≠ rid → rooms (leaveRoom s sid rid).1 !! x = rooms s !! x)
  ∧ (∀ x, x ≠ sid → sockets (leaveRoom s sid rid).1 !! x = sockets s !! x)
  ∧ (∀ v, sockets s !! sid ≫= userId ≠ Some v →
          onlineUsers (leaveRoom s sid rid).1 !! v = onlineUsers s !! v).
Proof.
  destruct (leaveRoom_cases s sid rid)
    as [->|(sk & uid & r & Hsk & Hu & Hr & Hon & Hp & ->)]; [done|].
  simpl. split; [|split].
  - intros x Hx. case_bool_decide.
    + by rewrite lookup_delete_ne.
    + by rewrite lookup_insert_ne.
  - intros x Hx. by rewrite lookup_insert_ne.
  - intros v Hv. rewrite Hsk in Hv. simpl in Hv. rewrite Hu in Hv.
    destruct (onlineUsers s !! uid); [|done].
    rewrite lookup_insert_ne; [done|]. congruence.
Qed.


(** X18: a leave, whether it removes the user or not, touches no room but
    the one left, no directory record but the leaver's, and no socket but
    the leaving one. *)
Theorem leave_touches_one_room_one_user s sid rid :
  (∀ x, x ≠ rid → rooms (leaveRoom s sid rid).1 !! x = rooms s !! x)
  ∧ (∀ x, x ≠ sid → sockets (leaveRoom s sid rid).1 !! x = sockets s !! x)
  ∧ (∀ v, sockets s !! sid ≫= userId ≠ Some v →
          onlineUsers (leaveRoom s sid rid).1 !! v = onlineUsers s !! v).
Proof. apply leaveRoom_frame. Qed.

(** ** Handlers that throw *)





(** ** The capacity of a room *)

Definition within_capacity (rs : gmap string room) : Prop :=
  map_Forall (λ _ r, (size (participants r) ≤ capacity)%nat) rs.

Lemma leaveRoom_within_capacity s sid rid :
  within_capacity (rooms s) → within_capacity (rooms (leaveRoom s sid rid).1).
Proof.
  intros Hcap.
  destruct (leaveRoom_cases s sid rid)
    as [->|(sk & uid & r & Hsk & Hu & Hr & Hon & Hp & ->)]; [done|].
  simpl. case_bool_decide.
  - by apply map_Forall_delete.
  - apply map_Forall_insert_2; [|done]. simpl.
    pose proof (Hcap rid r Hr) as Hsz. simpl in Hsz.
    rewrite map_size_delete. destruct (participants r !! uid); simpl; lia.
Qed.

Lemma joinRoom_within_capacity s sid rid s' out :
  within_capacity (rooms s) → joinRoom s sid rid = Some (s', out) →
  within_capacity (rooms s').
Proof.
  intros Hcap. unfold joinRoom.
  destruct (sockets s !! sid) as [sk|] eqn:Hsk; [|by intros; simplify_eq].
  destruct (userId sk) as [uid|] eqn:Hu; [|by intros; simplify_eq].
  destruct (rooms s !! rid) as [r|] eqn:Hr; [|by case_match; intros; simplify_eq].
  destruct (negb (has_record (onlineUsers s) uid)); [by intros; simplify_eq|].
  case_bool_decide as Hfull; [by intros; simplify_eq|].
  (* the state after the leave, if any, still has the room, with space *)
  match goal with |- match ?prev with _ => _ end = _ → _ =>
    assert (prev = None
            ∨ ∃ s1 out1, prev = Some (s1, out1)
                         ∧ within_capacity (rooms s1) ∧ rooms s1 !! rid = Some r)
      as [->|(s1 & out1 & -> & Hcap1 & Hr1)] end; [|done|].
  { destruct (currentRoomId sk) as [cur|]; [|by eauto 10].
    destruct (truthy cur); simpl; [|by eauto 10].
    destruct (String.eqb cur rid) eqn:He; simpl; [by eauto 10|].
    apply String.eqb_neq in He.
    destruct (leaveRoom_throws s sid cur); [by left|]. right.
    exists (leaveRoom s sid cur).1, (leaveRoom s sid cur).2.
    split; [by destruct (leaveRoom s sid cur)|].
    split; [by apply leaveRoom_within_capacity|].
    rewrite (proj1 (leaveRoom_frame s sid cur)); [done|congruence]. }
  rewrite Hr1.
  destruct (sockets s1 !! sid); [|done].
  intros ?; simplify_eq. simpl.
  apply map_Forall_insert_2; [|done]. simpl.
  rewrite map_size_insert. destruct (participants r !! uid); simpl; lia.
Qed.

Local Ltac leave_state :=
  match goal with
  | H : leaveRoom ?s0 ?a ?b = (?s1, ?o) |- _ =>
      replace s1 with (leaveRoom s0 a b).1 in * by (by rewrite H)
  end.

Lemma handle_within_capacity s sid ev s' out :
  within_capacity (rooms s) → handle s sid ev = Some (s', out) →
  within_capacity (rooms s').
Proof.
  intros Hcap. unfold handle. destruct (sockets s !! sid) as [sk|] eqn:Hsk.
  2: { destruct ev; intros; by simplify_eq. }
  assert (on_leave_room s sid sk = Some (s', out) → within_capacity (rooms s')) as Hleave.
  { unfold on_leave_room. intros Hh. repeat case_match; simplify_eq; try done.
    leave_state. by apply leaveRoom_within_capacity. }
  destruct ev; intros Hh;
    try (apply fmap_Some in Hh as (? & ? & ?)); simplify_eq; try done.
  - unfold on_register_user in Hh. case_match; by simplify_eq.
  - unfold on_create_room in Hh. case_match; [by simplify_eq|].
    eapply joinRoom_within_capacity; [|exact Hh]. simpl.
    apply map_Forall_insert_2; [|done]. simpl. rewrite map_size_empty. unfold capacity. lia.
  - unfold on_join_room in Hh. repeat case_match; simplify_eq; try done.
    by eapply joinRoom_within_capacity.
  - by apply Hleave.
  - unfold on_mentor_mute_participant in Hh. repeat case_match; by simplify_eq.
  - unfold on_mentor_remove_participant in Hh. repeat case_match; simplify_eq; try done.
    leave_state. by apply leaveRoom_within_capacity.
  - unfold on_disconnect in Hh. repeat case_match; simplify_eq; simpl; try done.
    by apply leaveRoom_within_capacity.
  - unfold on_no_payload in Hh. repeat case_match; simplify_eq; try done.
    by apply Hleave.
Qed.

(** X20: in every state the open-join server reaches, no room has more
    than twenty participants. *)
Theorem rooms_stay_within_capacity evs s rid r :
  run init evs = Some s →
  rooms s !! rid = Some r →
  (size (participants r) ≤ 20)%nat.
Proof.
  intros Hrun Hr.
  assert (∀ s0, within_capacity (rooms s0) → run s0 evs = Some s →
                within_capacity (rooms s)) as Hind.
  { clear. induction evs as [|[sid ev] evs IH]; intros s0 Hcap Hrun; simpl in Hrun.
    - by simplify_eq.
    - destruct (handle s0 sid ev) as [[s1 out]|] eqn:Hh; [|done].
      apply (IH s1); [by eapply handle_within_capacity|done]. }
  refine (Hind init _ Hrun rid r Hr). unfold init; simpl. apply map_Forall_empty.
Qed.

Lemma rooms_stay_within_capacity_witness :
  (size (participants (Room "r2" "Dois" "bob" {["bob" := "s2"]})) ≤ 20)%nat.
Proof.
  apply (rooms_stay_within_capacity two_rooms (after two_rooms) "r2");
    vm_compute; reflexivity.
Defined.

(** ** Joining, creating *)



End OpenJoinRooms.

Section OpenJoinEvents.
Import OpenJoin.

Implicit Types (s : state) (r : room) (sk : socket) (sid uid rid : string).




(** ** The owner's controls *)

(** X23: muting or removing a participant is refused, with the
    not-permitted error and no change of state, unless the caller is the
    owner of the room. *)
Theorem mentor_controls_need_the_owner s sid sk rid target ev :
  sockets s !! sid = Some sk →
  (∀ uid r, userId sk = Some uid → rooms s !! rid = Some r → ownerId r ≠ uid) →
  ev = mentor_mute_participant rid target ∨ ev = mentor_remove_participant rid target →
  handle s sid ev = Some (s, [error_message sid msg_not_permitted]).
Proof.
  intros Hsk Hno Hev. unfold handle. rewrite Hsk.
  assert (owner_of s sk rid = None) as Hown.
  { unfold owner_of. destruct (userId sk) as [uid|] eqn:Hu; [|done].
    destruct (negb (truthy uid)); [done|].
    destruct (rooms s !! rid) as [r|] eqn:Hr; [|done].
    destruct (has_record (onlineUsers s) uid); [|done].
    destruct (String.eqb (ownerId r) uid) eqn:He; [|done].
    apply String.eqb_eq in He. by destruct (Hno uid r eq_refl eq_refl). }
  destruct Hev as [->| ->]; simpl.
  - unfold on_mentor_mute_participant. by rewrite Hown.
  - unfold on_mentor_remove_participant. by rewrite Hown.
Qed.

Lemma mentor_controls_need_the_owner_witness :
  handle (after two_rooms) "s1" (mentor_remove_participant "r2" "bob")
  = Some (after two_rooms, [error_message "s1" msg_not_permitted]).
Proof.
  apply (mentor_controls_need_the_owner (after two_rooms) "s1"
           (Socket (Some "alice") (Some "r1") {["r1"]}) "r2" "bob").
  - vm_compute; reflexivity.
  - intros uid r Hu Hr. simpl in Hu. vm_compute in Hr. simplify_eq.
    intros Heq. discriminate Heq.
  - by right.
Defined.

(** X24: the owner of a room removes a participant who is online on a
    socket bound to that identity: the target's socket is told it was
    removed, then the target leaves exactly as by a leave of its own, and is
    no longer a participant of the room (which goes if it is empty). *)
Theorem owner_removes_participant s sid sk uid u0 rid r target ut skt :
  sockets s !! sid = Some sk →
  userId sk = Some uid →
  truthy uid = true →
  onlineUsers s !! uid = Some u0 →
  rooms s !! rid = Some r →
  ownerId r = uid →
  onlineUsers s !! target = Some ut →
  sockets s !! u_socketId ut = Some skt →
  userId skt = Some target →
  truthy_opt (participants r !! target) = true →
  handle s sid (mentor_remove_participant rid target)
  = Some ((leaveRoom s (u_socketId ut) rid).1,
          Emit (to_socket (u_socketId ut)) "removed_from_room"
               (JObj [("roomId", JStr rid); ("by", JStr uid)])
          :: (leaveRoom s (u_socketId ut) rid).2)
  ∧ member_of (leaveRoom s (u_socketId ut) rid).1 rid target = false.
Proof.
  intros Hsk Hu Ht Hon Hr Hown Hont Hskt Hut Hp. split.
  - unfold handle. rewrite Hsk. unfold on_mentor_remove_participant, owner_of.
    rewrite Hu, Ht, Hr, (has_record_own _ _ _ Hon), Hown, String.eqb_refl. simpl.
    rewrite Hont, Hskt, (has_string_own _ _ Hp).
    by destruct (leaveRoom s (u_socketId ut) rid).
  - rewrite (leaveRoom_member s (u_socketId ut) skt target ut rid r) by done.
    unfold member_of. simpl. case_bool_decide.
    + by rewrite lookup_delete_eq.
    + rewrite lookup_insert_eq. simpl. rewrite lookup_delete_eq.
      apply bool_decide_eq_false. by intros [? ?].
Qed.

(** Carol joins bob's room. *)
Definition carol_in_r2 : list (string * event) :=
  two_rooms ++
  [("s3", connection); ("s3", register_user "carol" "Carol"); ("s3", join_room "r2")].

Lemma owner_removes_participant_witness :
  handle (after carol_in_r2) "s2" (mentor_remove_participant "r2" "carol")
  = Some ((leaveRoom (after carol_in_r2) "s3" "r2").1,
          Emit (to_socket "s3") "removed_from_room"
               (JObj [("roomId", JStr "r2"); ("by", JStr "bob")])
          :: (leaveRoom (after carol_in_r2) "s3" "r2").2)
  ∧ member_of (leaveRoom (after carol_in_r2) "s3" "r2").1 "r2" "carol" = false.
Proof.
  apply (owner_removes_participant (after carol_in_r2) "s2"
           (Socket (Some "bob") (Some "r2") {["r2"]}) "bob" (User "s2" "Bob" (Some "r2"))
           "r2" (Room "r2" "Dois" "bob" {["bob" := "s2"; "carol" := "s3"]})
           "carol" (User "s3" "Carol" (Some "r2"))
           (Socket (Some "carol") (Some "r2") {["r2"]}));
    vm_compute; reflexivity.
Defined.

End OpenJoinEvents.

Section OpenJoinMessages.
Import OpenJoin.

Implicit Types (s : state) (r : room) (sk : socket) (sid uid rid : string).

(** The payload of a chat message of the open-join server. *)
Definition open_chat_payload s uid (messageText : string) (now : nat) : json :=
  JObj [("senderUserId", JStr uid);
        ("senderDisplayName", displayName_of s uid);
        ("messageText", JStr messageText);
        ("timestamp", JNum now)].

(** X25: in the open-join server a chat message to a room of the registry
    never changes the state.  When [rooms[roomId].participants] reads as
    truthy under the sender's identity (the sender is a participant, or the
    identity is the name of a property inherited from [Object.prototype])
    it goes once to the recorded socket of every participant and nowhere
    else, even when its text is empty; from anybody else it goes nowhere. *)
Theorem open_chat_goes_to_every_participant s sid sk uid rid r messageText now :
  sockets s !! sid = Some sk →
  userId sk = Some uid →
  truthy uid = true →
  truthy rid = true →
  rooms s !! rid = Some r →
  ∃ out,
    handle s sid (chat_message rid messageText now) = Some (s, out)
    ∧ (has_string (participants r) uid = false → out = [])
    ∧ (has_string (participants r) uid = true →
       length out = size (participants r)
       ∧ ∀ e, e ∈ out ↔
              ∃ v psid, participants r !! v = Some psid
                        ∧ e = Emit (to_room psid) "chat_message"
                                   (open_chat_payload s uid messageText now)).
Proof.
  intros Hsk Hu Ht Hrid Hr. unfold handle. rewrite Hsk. unfold on_chat_message.
  rewrite Hu, Hr, Ht, Hrid. simpl.
  destruct (has_string (participants r) uid) eqn:Hmember; simpl.
  2: { by exists []. }
  eexists. split; [reflexivity|]. split.
  - done.
  - intros _. split.
    + by rewrite length_fmap, length_map_to_list.
    + intros e. rewrite list_elem_of_fmap. split.
      * intros ([v psid] & -> & Hin). apply elem_of_map_to_list in Hin. by exists v, psid.
      * intros (v & psid & Hp & ->). exists (v, psid). split; [done|].
        by apply elem_of_map_to_list.
Qed.

(** A registered user called "constructor", who is in no room, writes to
    bob's room: the message reaches bob. *)
Lemma open_chat_under_inherited_name :
  e_dest <$> from_option snd []
    (handle (after (two_rooms ++ [("s3", connection); ("s3", register_user "constructor" "C")]))
            "s3" (chat_message "r2" "oi" 7))
  = [to_room "s2"].
Proof. vm_compute. reflexivity. Qed.

Lemma open_chat_goes_to_every_participant_witness :
  ∃ out,
    handle (after carol_in_r2) "s3" (chat_message "r2" "" 7) = Some (after carol_in_r2, out)
    ∧ (has_string (participants (Room "r2" "Dois" "bob" {["bob" := "s2"; "carol" := "s3"]}))
                  "carol" = false → out = [])
    ∧ (has_string (participants (Room "r2" "Dois" "bob" {["bob" := "s2"; "carol" := "s3"]}))
                  "carol" = true →
       length out = size (participants (Room "r2" "Dois" "bob" {["bob" := "s2"; "carol" := "s3"]}))
       ∧ ∀ e, e ∈ out ↔
              ∃ v psid,
                participants (Room "r2" "Dois" "bob" {["bob" := "s2"; "carol" := "s3"]}) !! v
                = Some psid
                ∧ e = Emit (to_room psid) "chat_message"
                           (open_chat_payload (after carol_in_r2) "carol" "" 7)).
Proof.
  apply (open_chat_goes_to_every_participant (after carol_in_r2) "s3"
           (Socket (Some "carol") (Some "r2") {["r2"]}) "carol" "r2"
           (Room "r2" "Dois" "bob" {["bob" := "s2"; "carol" := "s3"]}) "" 7);
    vm_compute; reflexivity.
Defined.



End OpenJoinMessages.

Section MentoriaRegistryAtWork.
Import Mentoria.

(** The invariants of the registry on the scenarios. *)

Lemma only_the_primary_room_witness :
  is_Some (mentoriaRooms (after alice_approved) !! "another_room")
  ↔ "another_room" = defaultMentoriaRoomId.
Proof.
  apply (only_the_primary_room alice_approved (after alice_approved) "another_room").
  vm_compute; reflexivity.
Defined.

Lemma participants_are_joined_witness :
  is_joined (primary_room (after alice_approved)) "alice"
  = bool_decide (is_Some (participants (primary_room (after alice_approved)) !! "alice")).
Proof.
  apply (participants_are_joined alice_approved (after alice_approved) defaultMentoriaRoomId);
    vm_compute; reflexivity.
Defined.

Lemma invitations_name_the_authority_witness :
  mentorId (primary_room (after alice_invited)) = Some "mentor" ∧ truthy "mentor" = true.
Proof.
  apply (invitations_name_the_authority alice_invited (after alice_invited)
           defaultMentoriaRoomId (primary_room (after alice_invited)) "alice" "mentor");
    vm_compute; reflexivity.
Defined.

End MentoriaRegistryAtWork.
